(** * Q1 2025 analysis dashboard: a shallow embedding of [q1_2025_analysis.py]

    The script loads a CSV export of issues into a pandas DataFrame, cleans
    it, and renders a set of charts.  This development embeds the script's
    functions and proves the properties of its data pipeline.

    Modelling conventions.
    - Text is a [string] of code points below 256; [lower] and [strip]
      follow Python's [str.lower] and [str.strip] on that range.
    - A DataFrame is the list of its rows in index order; a column is a
      field of the row record.  A missing value (NaN, None, NaT) of a
      column is [None].
    - DataFrames are mutable objects: functions receive a reference into a
      heap of frames, and [df[col] = ...] writes through that reference.
      Beside each frame the store keeps the dtype of its Labels column, on
      which the [.str] accessor depends.
    - A well-formed timestamp of the export carries the UTC designator, so
      a date column is tz-aware once converted exactly when some cell of
      it parses.
    - A float64 column is carried over the canonical rationals [Qc], with
      NaN a separate value: this tells which values are present, which are
      NaN, and the sign and the bounds of a value.  Where a value itself
      is read, the operations are those of IEEE 754 binary64, on [float]. *)

From Stdlib Require Import List String Ascii Bool Arith ZArith Lia.
From Stdlib Require Import QArith Qcanon.
From Stdlib Require Floats Uint63.
Import ListNotations.

Local Close Scope Q_scope.
Local Open Scope string_scope.
Local Open Scope list_scope.
Local Open Scope nat_scope.

(** ** Text *)

Module Text.

(** [str.lower] on one code point below 256: the Basic Latin capitals and
    the Latin-1 capitals (U+00C0..U+00DE, without the multiplication sign
    U+00D7) move up by 32. *)
Definition lower_char (c : ascii) : ascii :=
  let n := nat_of_ascii c in
  if ((65 <=? n) && (n <=? 90))
     || ((192 <=? n) && (n <=? 222) && negb (n =? 215))
  then ascii_of_nat (n + 32) else c.

Fixpoint lower (s : string) : string :=
  match s with
  | EmptyString => EmptyString
  | String c s' => String (lower_char c) (lower s')
  end.

(** [sub in s]: does [sub] occur in [s] as a contiguous substring. *)
Fixpoint contains (sub s : string) : bool :=
  String.prefix sub s
  || match s with
     | EmptyString => false
     | String _ s' => contains sub s'
     end.

(** [s.replace(old, new)] for a non-empty [old]: occurrences are replaced
    left to right without overlap.  [skip] counts the characters of a
    match that are still to be consumed. *)
Fixpoint replace_from (old new : string) (skip : nat) (s : string) : string :=
  match s with
  | EmptyString => EmptyString
  | String c s' =>
      match skip with
      | S k => replace_from old new k s'
      | O =>
          if String.prefix old s
          then new ++ replace_from old new (String.length old - 1) s'
          else String c (replace_from old new 0 s')
      end
  end.

Definition replace (old new s : string) : string := replace_from old new 0 s.

(** [str.isspace] on one code point below 256. *)
Definition is_space (c : ascii) : bool :=
  let n := nat_of_ascii c in
  ((9 <=? n) && (n <=? 13)) || ((28 <=? n) && (n <=? 32))
  || (n =? 133) || (n =? 160).

Fixpoint lstrip (s : string) : string :=
  match s with
  | EmptyString => EmptyString
  | String c s' => if is_space c then lstrip s' else s
  end.

Fixpoint rstrip (s : string) : string :=
  match s with
  | EmptyString => EmptyString
  | String c s' =>
      match rstrip s' with
      | EmptyString => if is_space c then EmptyString else String c EmptyString
      | t => String c t
      end
  end.

Definition strip (s : string) : string := rstrip (lstrip s).

(** [Series.str.contains(pat, case=False, na=False)] on one cell.  The
    patterns the script passes are lower-case words with hyphens, which
    as regular expressions match themselves; ignoring case then amounts to
    searching the lowered text.  A missing cell gives [na], here False.
    This is the mask cell by cell; whether the column has a [.str] accessor
    at all is a matter of its dtype, see [str_accessor]. *)
Definition str_contains_nocase (pat : string) (cell : option string) : bool :=
  match cell with
  | Some s => contains pat (lower s)
  | None => false
  end.

End Text.

(** ** Task types and the two classifiers *)

Inductive TaskType := Bug | ServiceRequest | Infrastructure | FeatureEnhancement.

(** The string each classifier returns for a task type. *)
Definition task_type_name (t : TaskType) : string :=
  match t with
  | Bug => "Bug"
  | ServiceRequest => "Service Request"
  | Infrastructure => "Infrastructure"
  | FeatureEnhancement => "Feature/Enhancement"
  end.

(** [str(labels)] for a cell of the Labels column: the text itself, or
    ["nan"] for a missing cell (a float NaN). *)
Definition str_of_cell (labels : option string) : string :=
  match labels with
  | Some s => s
  | None => "nan"
  end.

(** [get_task_type] as nested in [task_type_split_by_service]. *)
Module SplitByService.
Definition get_task_type (labels : option string) : TaskType :=
  let labels_lower := Text.lower (str_of_cell labels) in
  if Text.contains "bug" labels_lower || Text.contains "confirmed-bug" labels_lower
  then Bug
  else if Text.contains "service-request" labels_lower
  then ServiceRequest
  else if Text.contains "infra-related" labels_lower
  then Infrastructure
  else FeatureEnhancement.
End SplitByService.

(** [get_task_type] as nested in [task_distribution_by_type]. *)
Module DistributionByType.
Definition get_task_type (labels : option string) : TaskType :=
  let labels_lower := Text.lower (str_of_cell labels) in
  if Text.contains "bug" labels_lower || Text.contains "confirmed-bug" labels_lower
  then Bug
  else if Text.contains "service-request" labels_lower
  then ServiceRequest
  else if Text.contains "infra-related" labels_lower
  then Infrastructure
  else FeatureEnhancement.
End DistributionByType.

(** ** Values, rows and frames *)

(** A numeric cell of a Series: an int64, a float64 (kept exact), NaN or an
    infinity. *)
Inductive num :=
| Int (n : Z)
| Float (q : Qc)
| NaN
| Inf (negative : bool).

Definition Qc_of_Z (z : Z) : Qc := Q2Qc (inject_Z z).
Definition Qc_of_nat (n : nat) : Qc := Qc_of_Z (Z.of_nat n).

(** The float a numeric cell converts to; [None] for NaN and infinities. *)
Definition num_value (x : num) : option Qc :=
  match x with
  | Int n => Some (Qc_of_Z n)
  | Float q => Some q
  | NaN | Inf _ => None
  end.

Definition Qc_is_zero (q : Qc) : bool := Qeq_bool q 0%Q.
Definition Qc_is_neg (q : Qc) : bool := negb (Qle_bool 0%Q q).

(** True division [x / y] of two cells, as numpy does it: a zero divisor
    gives NaN for a zero dividend and an infinity otherwise.  The quotient
    is kept exact where float64 rounds it; [int_div_f64] below is the
    rounded one. *)
Definition num_div (x y : num) : num :=
  match num_value x, num_value y with
  | Some a, Some b =>
      if Qc_is_zero b
      then if Qc_is_zero a then NaN else Inf (Qc_is_neg a)
      else Float (a / b)%Qc
  | _, _ => NaN
  end.

(** [x * k] for a finite non-zero constant [k]. *)
Definition num_scale (x : num) (k : Z) : num :=
  match x with
  | Int n => Int (n * k)
  | Float q => Float (q * Qc_of_Z k)%Qc
  | NaN => NaN
  | Inf s => Inf (xorb s (k <? 0)%Z)
  end.

(** A cell of the Estimate column: [EstNumber q] is a cell [pd.to_numeric]
    reads as [q], [EstText s] is text it cannot read, [EstMissing] is NaN. *)
Inductive estimate :=
| EstNumber (q : Qc)
| EstText (s : string)
| EstMissing.

(** A cell of a date column as [pd.read_csv] delivers it: empty, text that
    the ISO 8601 parser rejects, or text it accepts, held with the instant
    it denotes in nanoseconds since the epoch. *)
Inductive raw_date :=
| Blank
| Malformed (text : string)
| WellFormed (ns : Z).

(** One line of the CSV file. *)
Record csv_row := mk_csv_row {
  csv_ID : option string;
  csv_Assignee : option string;
  csv_Labels : option string;
  csv_Status : option string;
  csv_Priority : option string;
  csv_Estimate : estimate;
  csv_Cycle_Name : option string;
  csv_Created : raw_date;
  csv_Completed : raw_date;
  csv_Updated : raw_date;
  csv_Started : raw_date
}.

(** One row of the DataFrame once [load_data] has converted it.  Timestamps
    are nanoseconds since the epoch, [None] is NaT.  [Task_Type] is [None]
    until a classifier has filled the column. *)
Record row := mk_row {
  ID : option string;
  Assignee : option string;
  Labels : option string;
  Status : option string;
  Priority : option string;
  Estimate : estimate;
  Cycle_Name : option string;
  Created : option Z;
  Completed : option Z;
  Updated : option Z;
  Started : option Z;
  Cycle_Time : option Qc;
  Task_Type : option TaskType
}.

Definition frame := list row.

(** Column assignments [df[col] = ...], one row at a time. *)
Definition set_Cycle_Name (v : option string) (r : row) : row :=
  mk_row (ID r) (Assignee r) (Labels r) (Status r) (Priority r) (Estimate r)
         v (Created r) (Completed r) (Updated r) (Started r)
         (Cycle_Time r) (Task_Type r).

Definition set_Estimate (v : estimate) (r : row) : row :=
  mk_row (ID r) (Assignee r) (Labels r) (Status r) (Priority r) v
         (Cycle_Name r) (Created r) (Completed r) (Updated r) (Started r)
         (Cycle_Time r) (Task_Type r).

Definition set_Assignee (v : option string) (r : row) : row :=
  mk_row (ID r) v (Labels r) (Status r) (Priority r) (Estimate r)
         (Cycle_Name r) (Created r) (Completed r) (Updated r) (Started r)
         (Cycle_Time r) (Task_Type r).

Definition set_Task_Type (v : option TaskType) (r : row) : row :=
  mk_row (ID r) (Assignee r) (Labels r) (Status r) (Priority r) (Estimate r)
         (Cycle_Name r) (Created r) (Completed r) (Updated r) (Started r)
         (Cycle_Time r) v.

(** Equality of two cells of a text column; two missing cells are equal, as
    they are for [drop_duplicates]. *)
Definition cell_eqb (a b : option string) : bool :=
  match a, b with
  | Some x, Some y => String.eqb x y
  | None, None => true
  | _, _ => false
  end.

(** [series == value] on one cell: a missing cell equals no text. *)
Definition cell_is (value : string) (c : option string) : bool :=
  cell_eqb c (Some value).

(** [df.empty], and emptiness of a column. *)
Definition is_empty {A : Type} (l : list A) : bool :=
  match l with
  | [] => true
  | _ :: _ => false
  end.

(** ** Series: labelled values *)

Definition series := list (string * num).

Fixpoint lookup {A : Type} (k : string) (s : list (string * A)) : option A :=
  match s with
  | [] => None
  | (k', v) :: s' => if String.eqb k k' then Some v else lookup k s'
  end.

Definition index_of {A : Type} (s : list (string * A)) : list string := map fst s.

Definition mem (k : string) (l : list string) : bool := existsb (String.eqb k) l.

(** The distinct values of a list in order of first appearance. *)
Fixpoint unique_from (seen l : list string) : list string :=
  match l with
  | [] => []
  | x :: l' =>
      if mem x seen then unique_from seen l'
      else x :: unique_from (x :: seen) l'
  end.

Definition unique (l : list string) : list string := unique_from [] l.

(** Ascending sort of labels by code points. *)
Fixpoint insert_label (x : string) (l : list string) : list string :=
  match l with
  | [] => [x]
  | y :: l' => if String.leb x y then x :: l else y :: insert_label x l'
  end.

Fixpoint sort_labels (l : list string) : list string :=
  match l with
  | [] => []
  | x :: l' => insert_label x (sort_labels l')
  end.

(** The present values of a text column, top to bottom. *)
Definition column_values (col : row -> option string) (f : frame) : list string :=
  flat_map (fun r => match col r with Some v => [v] | None => [] end) f.

(** The group labels of [df.groupby(col)]: the distinct present values,
    sorted; rows with a missing key belong to no group. *)
Definition group_keys (col : row -> option string) (f : frame) : list string :=
  sort_labels (unique (column_values col f)).

Definition group (col : row -> option string) (k : string) (f : frame) : frame :=
  filter (fun r => cell_is k (col r)) f.

(** [df.groupby(col).size()]. *)
Definition groupby_size (col : row -> option string) (f : frame) : series :=
  map (fun k => (k, Int (Z.of_nat (List.length (group col k f))))) (group_keys col f).

(** [a / b] on two Series: the result is indexed by the sorted union of the
    two indexes, and a label missing on either side gives NaN. *)
Definition series_div (a b : series) : series :=
  map (fun k =>
         (k, match lookup k a, lookup k b with
             | Some x, Some y => num_div x y
             | _, _ => NaN
             end))
      (sort_labels (unique (index_of a ++ index_of b))).

Definition series_scale (a : series) (k : Z) : series :=
  map (fun kv => (fst kv, num_scale (snd kv) k)) a.





(** [s.reindex(order, fill_value=fill)]. *)
Definition reindex (order : list string) (fill : num) (s : series) : series :=
  map (fun k => (k, match lookup k s with Some v => v | None => fill end)) order.

(** Insertion by decreasing count, ahead of the entries of equal count. *)
Fixpoint insert_count (x : string * nat) (l : list (string * nat)) : list (string * nat) :=
  match l with
  | [] => [x]
  | y :: l' => if snd y <=? snd x then x :: l else y :: insert_count x l'
  end.

(** [Series.value_counts()]: the distinct present values with their number
    of occurrences, by decreasing count, ties in order of first appearance. *)
Definition value_counts (values : list string) : series :=
  map (fun kv => (fst kv, Int (Z.of_nat (snd kv))))
      (fold_right insert_count []
         (map (fun v => (v, List.length (filter (String.eqb v) values))) (unique values))).

(** ** Charts and the display surface *)

Inductive chart_kind := BarChart | PieChart | CountChart.

(** What a plotly figure shows: its kind, its title and its traces, each a
    named series. *)
Record figure := mk_figure {
  fig_kind : chart_kind;
  fig_title : string;
  fig_traces : list (string * series)
}.

(** [px.bar(s, title=...)] and [px.pie(values=s.values, names=s.index, ...)]
    of one Series. *)
Definition px_bar (s : series) (title : string) : figure :=
  mk_figure BarChart title [("", s)].

(** [px.bar] of a series of dtype [object].  plotly does not read such a
    series as heights over its index: it lays the values of the series
    along the x axis and draws at each a bar of height 1, a count.  The
    index of the series is not in the figure.  The trace of a [CountChart]
    lists the values that the bars stand at, each under the empty label,
    the figure having no label for it; every bar has height 1. *)
Definition px_bar_object (s : series) (title : string) : figure :=
  mk_figure CountChart title [("", map (fun kv => ("", snd kv)) s)].

Definition px_pie (s : series) (title : string) : figure :=
  mk_figure PieChart title [("", s)].

(** The calls to streamlit, in the order they are made. *)
Inductive event :=
| st_title (text : string)
| st_header (text : string)
| st_error (text : string)
| st_warning (text : string)
| st_plotly_chart (fig : figure).

Definition is_chart (e : event) : bool :=
  match e with
  | st_plotly_chart _ => true
  | _ => false
  end.

(** ** The store: frames by reference, the display, the disk *)

Inductive exn :=
| FileNotFoundError
| PermissionError
| IsADirectoryError
| EmptyDataError
| ParserError
| UnicodeDecodeError
| TypeError
| AttributeError
| KeyError.

(** What [pd.read_csv] does at a path: it raises, or it delivers the lines
    of the table. *)
Inductive read_result :=
| Raises (e : exn)
| Table (lines : list csv_row).

Definition ref := nat.

(** The dtype of a frame's Labels column.  [read_csv] gives the column the
    dtype [object] when some cell of it holds text, and also when the table
    has no lines; a column of a non-empty table with every cell empty is
    read as [float64].  A frame selected or copied from another inherits
    the dtype, whatever rows are left in it. *)
Inductive dtype :=
| object
| float64.

Record world := mk_world {
  heap : list frame;
  ui : list event;
  disk : string -> read_result;
  dtypes : ref -> dtype
}.

Inductive result (A : Type) :=
| Ok (a : A)
| Raise (e : exn).
Arguments Ok {A} a.
Arguments Raise {A} e.

(** Computations that read and write the store and may raise. *)
Definition M (A : Type) : Type := world -> result A * world.

Definition ret {A : Type} (a : A) : M A := fun w => (Ok a, w).

Definition bind {A B : Type} (m : M A) (k : A -> M B) : M B :=
  fun w =>
    match m w with
    | (Ok a, w') => k a w'
    | (Raise e, w') => (Raise e, w')
    end.

Notation "x <- m ;; k" := (bind m (fun x => k))
  (at level 61, m at next level, right associativity).
Notation "m ;;; k" := (bind m (fun _ => k))
  (at level 61, right associativity).

Definition raise {A : Type} (e : exn) : M A := fun w => (Raise e, w).

(** [try: body except ...: handler]; the handler re-raises what it does not
    catch. *)
Definition try_except {A : Type} (body : M A) (handler : exn -> M A) : M A :=
  fun w =>
    match body w with
    | (Ok a, w') => (Ok a, w')
    | (Raise e, w') => handler e w'
    end.

(** The frame a reference points to. *)
Definition frame_at (w : world) (df : ref) : frame := nth df (heap w) [].

(** The dtype of the Labels column of the frame a reference points to. *)
Definition dtype_at (w : world) (df : ref) : dtype := dtypes w df.

(** The dtypes with one more frame. *)
Definition with_dtype (df : ref) (t : dtype) (ts : ref -> dtype) : ref -> dtype :=
  fun r => if Nat.eqb r df then t else ts r.

(** A new DataFrame object, with the dtype of its Labels column. *)
Definition new_frame (f : frame) (t : dtype) : M ref :=
  fun w => (Ok (List.length (heap w)),
            mk_world (heap w ++ [f]) (ui w) (disk w)
                     (with_dtype (List.length (heap w)) t (dtypes w))).

Definition get_frame (df : ref) : M frame := fun w => (Ok (frame_at w df), w).

Definition get_dtype (df : ref) : M dtype := fun w => (Ok (dtype_at w df), w).

Fixpoint update {A : Type} (i : nat) (x : A) (l : list A) : list A :=
  match l, i with
  | [], _ => []
  | _ :: l', O => x :: l'
  | y :: l', S j => y :: update j x l'
  end.

(** Writing columns of an existing DataFrame object in place.  The columns
    the script writes are Cycle Name, Estimate, Assignee and Task Type; the
    Labels column keeps its dtype. *)
Definition set_frame (df : ref) (f : frame) : M unit :=
  fun w => (Ok tt, mk_world (update df f (heap w)) (ui w) (disk w) (dtypes w)).

Definition emit (e : event) : M unit :=
  fun w => (Ok tt, mk_world (heap w) (ui w ++ [e]) (disk w) (dtypes w)).

(** The [.str] accessor of a column: it is there for a column of dtype
    [object] and raises for a column of dtype [float64]. *)
Definition str_accessor (t : dtype) : M unit :=
  match t with
  | object => ret tt
  | float64 => raise AttributeError
  end.

Definition read_csv (file_path : string) : M (list csv_row) :=
  fun w =>
    match disk w file_path with
    | Raises e => (Raise e, w)
    | Table lines => (Ok lines, w)
    end.

(** One pass of [for x in xs: body]. *)
Fixpoint for_each {A : Type} (xs : list A) (body : A -> M unit) : M unit :=
  match xs with
  | [] => ret tt
  | x :: xs' => body x ;;; for_each xs' body
  end.

(** ** Loader *)

(** [pd.to_datetime(..., format='ISO8601', errors='coerce')] on one cell. *)
Definition to_datetime (c : raw_date) : option Z :=
  match c with
  | WellFormed ns => Some ns
  | Blank | Malformed _ => None
  end.

Definition isna {A : Type} (c : option A) : bool :=
  match c with
  | Some _ => false
  | None => true
  end.

(** [Timedelta.total_seconds()] of a difference in nanoseconds, with the
    quotient kept exact where float64 rounds it. *)
Definition total_seconds (ns : Z) : Qc := Q2Qc (ns # 1000000000).

(** The Cycle Time cell of one row: [None] as initialised, overwritten under
    the mask by the elapsed days. *)
Definition cycle_time (created completed : option Z) : option Qc :=
  let mask := negb (isna created || isna completed) in
  match created, completed with
  | Some c, Some d =>
      if mask then Some (total_seconds (d - c) / Qc_of_Z (24 * 60 * 60))%Qc
      else None
  | _, _ => None
  end.

Definition load_row (l : csv_row) : row :=
  let created := to_datetime (csv_Created l) in
  let completed := to_datetime (csv_Completed l) in
  let updated := to_datetime (csv_Updated l) in
  let started := to_datetime (csv_Started l) in
  mk_row (csv_ID l) (csv_Assignee l) (csv_Labels l) (csv_Status l)
         (csv_Priority l) (csv_Estimate l) (csv_Cycle_Name l)
         created completed updated started
         (cycle_time created completed) None.

(** Whether a date column is tz-aware once converted.  A well-formed
    timestamp of the export ends in the UTC designator, so the converted
    column is tz-aware when some cell of it parses; with no cell that
    parses it is a column of NaT without a time zone. *)
Definition tz_aware (column : csv_row -> raw_date) (lines : list csv_row) : bool :=
  existsb (fun l => negb (isna (to_datetime (column l)))) lines.

(** The subtraction [df.loc[mask, 'Completed'] - df.loc[mask, 'Created']]
    of line 23.  It is a subtraction of two columns: pandas refuses it with
    [TypeError] when one is tz-aware and the other is not, whatever the
    mask selects. *)
Definition subtract_columns (lines : list csv_row) : M unit :=
  if Bool.eqb (tz_aware csv_Completed lines) (tz_aware csv_Created lines)
  then ret tt
  else raise TypeError.

(** The dtype [read_csv] gives the Labels column. *)
Definition read_dtype (lines : list csv_row) : dtype :=
  match lines with
  | [] => object
  | _ :: _ =>
      if existsb (fun l => negb (isna (csv_Labels l))) lines then object
      else float64
  end.

(** [load_data].  The frame is built by [read_csv] and completed column by
    column before anyone else holds a reference to it, so it enters the
    heap in its final state, and not at all when line 23 raises.  The
    conversion of a column with [errors='coerce'] does not raise on the
    cells of [raw_date].  The handler catches [FileNotFoundError] alone. *)
Definition load_data (file_path : string) : M ref :=
  try_except
    (lines <- read_csv file_path ;;
     subtract_columns lines ;;;
     new_frame (map load_row lines) (read_dtype lines))
    (fun e =>
       match e with
       | FileNotFoundError =>
           emit (st_error ("File not found: " ++ file_path)) ;;;
           new_frame [] object
       | _ => raise e
       end).

(** ** Cleaner *)

Definition seen_before (k : option string) (seen : list (option string)) : bool :=
  existsb (cell_eqb k) seen.

(** [df.drop_duplicates(subset='ID', keep='first')]: a scan from the top
    that remembers the identifiers met so far. *)
Fixpoint drop_duplicates_from (seen : list (option string)) (f : frame) : frame :=
  match f with
  | [] => []
  | r :: f' =>
      if seen_before (ID r) seen then drop_duplicates_from seen f'
      else r :: drop_duplicates_from (ID r :: seen) f'
  end.

Definition drop_duplicates (f : frame) : frame := drop_duplicates_from [] f.

(** The mask [df['Labels'].str.contains('sub-task', case=False, na=False)]
    on one row. *)
Definition is_sub_task (r : row) : bool :=
  Text.str_contains_nocase "sub-task" (Labels r).

(** [preprocess_data].  Line 35 reaches the mask through the [.str]
    accessor of the Labels column, which raises when the column is not of
    dtype [object]. *)
Definition preprocess_data (df : ref) : M ref :=
  f <- get_frame df ;;
  t <- get_dtype df ;;
  df <- new_frame (drop_duplicates f) t ;;
  f <- get_frame df ;;
  t <- get_dtype df ;;
  str_accessor t ;;;
  new_frame (filter (fun r => negb (is_sub_task r)) f) t.

(** ** Aggregators *)

Definition is_done (r : row) : bool := cell_is "Done" (Status r).

(** [Series.replace(table)] on one cell: a cell equal to a key becomes the
    key's value, every other cell stays. *)
Definition replace_cell (table : list (string * string)) (c : option string)
  : option string :=
  match c with
  | Some s =>
      match lookup s table with
      | Some t => Some t
      | None => Some s
      end
  | None => None
  end.

Definition sprint_rename : list (string * string) :=
  [("FEB-S-3", "MAR-S-1"); ("FEB-S-4", "MAR-S-2")].

Definition sprint_order : list string :=
  ["JAN-S-1"; "JAN-S-2"; "FEB-S-1"; "FEB-S-2"; "MAR-S-1"; "MAR-S-2"].

Definition rename_sprint (r : row) : row :=
  set_Cycle_Name (replace_cell sprint_rename (Cycle_Name r)) r.

Definition completed_tasks (f : frame) : series :=
  reindex sprint_order (Int 0) (groupby_size Cycle_Name (filter is_done f)).

Definition sprint_velocity_trend (df : ref) : M figure :=
  f <- get_frame df ;;
  set_frame df (map rename_sprint f) ;;;
  f <- get_frame df ;;
  ret (px_bar (completed_tasks f) "Sprint Velocity (Tasks Completed per Sprint)").

(** [pd.to_numeric(..., errors='coerce').fillna(0)] on one cell. *)
Definition to_numeric (e : estimate) : option Qc :=
  match e with
  | EstNumber q => Some q
  | EstText _ | EstMissing => None
  end.

Definition fillna (d : Qc) (c : option Qc) : Qc :=
  match c with
  | Some q => q
  | None => d
  end.

Definition numeric_estimate (r : row) : row :=
  set_Estimate (EstNumber (fillna 0%Qc (to_numeric (Estimate r)))) r.

(** [df['Estimate'].sum()] on a column of numbers. *)
Definition estimate_sum (f : frame) : Qc :=
  fold_right Qcplus 0%Qc (map (fun r => fillna 0%Qc (to_numeric (Estimate r))) f).

Definition bandwidth_efficiency (df : ref) : M figure :=
  f <- get_frame df ;;
  set_frame df (map numeric_estimate f) ;;;
  f <- get_frame df ;;
  let actual_efficiency := (estimate_sum f / Qc_of_Z 5)%Qc in
  let predicted_efficiency := 12%Z in
  ret (mk_figure BarChart "Bandwidth Efficiency: Actual vs Predicted"
         [("Person Weeks",
           [("Predicted Efficiency", Float (Qc_of_Z predicted_efficiency));
            ("Actual Efficiency", Float actual_efficiency)])]).

Definition allowed_people : list string := ["gagan"; "ganesh"; "akshay"].

Definition clean_name (name : string) : string :=
  let name := Text.lower name in
  let name := Text.replace "@urbanpiper.com" "" name in
  let name := Text.strip name in
  name.

Definition available_weeks : list (string * Z) :=
  [("ganesh", 4%Z); ("gagan", 12%Z); ("akshay", 12%Z)].

Definition clean_assignee (r : row) : row :=
  set_Assignee
    (Some (clean_name (match Assignee r with Some s => s | None => "" end))) r.

Definition is_allowed (r : row) : bool :=
  match Assignee r with
  | Some x => existsb (fun person => Text.contains person x) allowed_people
  | None => false
  end.

(** [df_filtered.groupby('Assignee')['Estimate'].sum() / 5]. *)
Definition person_efficiency (f : frame) : list (string * Qc) :=
  map (fun k => (k, (estimate_sum (group Assignee k f) / Qc_of_Z 5)%Qc))
      (group_keys Assignee f).

Definition predicted_week (person : string) : Z :=
  let clean_person := clean_name person in
  let matched_person :=
    find (fun k => Text.contains k clean_person) (index_of available_weeks) in
  match matched_person with
  | Some k =>
      match lookup k available_weeks with
      | Some weeks => weeks
      | None => 12%Z
      end
  | None => 12%Z
  end.

(** [df_filtered['Estimate']] of line 105.  The key of line 102 is the
    result of [apply] on the Assignee column.  On a frame with rows it is a
    Boolean mask and selects rows.  On a frame without rows it is an empty
    column of dtype [object], which selects columns, none of them: the
    selection has no Estimate column and reading it raises [KeyError]. *)
Definition read_estimate_column (df_copy : frame) : M unit :=
  if is_empty df_copy then raise KeyError else ret tt.

Definition bandwidth_efficiency_per_person (df : ref) : M figure :=
  f <- get_frame df ;;
  t <- get_dtype df ;;
  df_copy <- new_frame f t ;;
  f <- get_frame df_copy ;;
  set_frame df_copy (map clean_assignee f) ;;;
  f <- get_frame df_copy ;;
  df_filtered <- new_frame (filter is_allowed f) t ;;
  read_estimate_column f ;;;
  f <- get_frame df_filtered ;;
  set_frame df_filtered (map numeric_estimate f) ;;;
  f <- get_frame df_filtered ;;
  let efficiency := person_efficiency f in
  let predicted_weeks := map predicted_week (index_of efficiency) in
  ret (mk_figure BarChart "Bandwidth Efficiency Per Person: Actual vs Predicted"
         [("Predicted Efficiency (Person Weeks)",
           combine (index_of efficiency)
                   (map (fun w => Float (Qc_of_Z w)) predicted_weeks));
          ("Actual Efficiency (Person Weeks)",
           map (fun kv => (fst kv, Float (snd kv))) efficiency)]).

(** The mean of a group's Cycle Time cells, missing cells skipped; NaN for
    a group with none present. *)
Definition mean (cells : list (option Qc)) : num :=
  match flat_map (fun c => match c with Some q => [q] | None => [] end) cells with
  | [] => NaN
  | qs => Float (fold_right Qcplus 0%Qc qs / Qc_of_nat (List.length qs))%Qc
  end.

Definition avg_cycle_time (f : frame) : series :=
  map (fun k => (k, mean (map Cycle_Time (group Cycle_Name k f))))
      (group_keys Cycle_Name f).

(** The Cycle Time column is created by [df['Cycle Time'] = None] and is of
    dtype [object], and so is the series of its means; the figure is the
    one [px.bar] draws for such a series. *)
Definition task_completion_efficiency (df : ref) : M figure :=
  f <- get_frame df ;;
  ret (px_bar_object (avg_cycle_time f)
         "Task Completion Efficiency (Average Cycle Time per Sprint)").

Definition priority_completion (f : frame) : series :=
  series_scale
    (series_div (groupby_size Priority (filter is_done f))
                (groupby_size Priority f))
    100.


Definition priority_vs_completion (df : ref) : M figure :=
  f <- get_frame df ;;
  ret (px_bar (priority_completion f) "Completion Rate by Priority").

Definition services : list string :=
  ["api"; "app"; "atlas-web"; "aurelia"; "editor";
   "frodo"; "luna"; "meraki-sdk"; "web";
   "payment-svc"].

(** [str.upper] on the service names, which are lower-case Basic Latin. *)
Definition upper_char (c : ascii) : ascii :=
  let n := nat_of_ascii c in
  if (97 <=? n) && (n <=? 122) then ascii_of_nat (n - 32) else c.

Fixpoint upper (s : string) : string :=
  match s with
  | EmptyString => EmptyString
  | String c s' => String (upper_char c) (upper s')
  end.

(** The Task Type column as the pie charts read it. *)
Definition task_type_column (f : frame) : list string :=
  column_values (fun r => option_map task_type_name (Task_Type r)) f.

(** [task_type_split_by_service].  The Task Type column is written with
    [apply], which works on a Labels column of any dtype; the filter of
    line 205 goes through the [.str] accessor. *)
Definition task_type_split_by_service (df : ref) : M unit :=
  f <- get_frame df ;;
  set_frame df
    (map (fun r => set_Task_Type (Some (SplitByService.get_task_type (Labels r))) r) f) ;;;
  for_each services (fun service =>
    f <- get_frame df ;;
    t <- get_dtype df ;;
    str_accessor t ;;;
    let service_df :=
      filter (fun r => Text.str_contains_nocase service (Labels r)) f in
    if negb (is_empty service_df) then
      let task_type_counts := value_counts (task_type_column service_df) in
      if negb (is_empty task_type_counts) then
        emit (st_plotly_chart
                (px_pie task_type_counts ("Task Type Split for " ++ upper service)))
      else ret tt
    else ret tt).

Definition task_distribution_by_type (df : ref) : M figure :=
  f <- get_frame df ;;
  set_frame df
    (map (fun r => set_Task_Type (Some (DistributionByType.get_task_type (Labels r))) r) f) ;;;
  f <- get_frame df ;;
  let task_type_counts := value_counts (task_type_column f) in
  ret (px_pie task_type_counts "Task Distribution Across Task Types").

(** ** Dashboard *)

Definition file_path : string := "./direct-ordering-squad-Q1-2025.csv".

(** [create_dashboard].  The two-column layout around the priority chart
    only places the chart and is left out.  An error of a callee is not
    caught: it ends the dashboard with what was shown so far. *)
Definition create_dashboard : M unit :=
  emit (st_title "Direct Ordering Squad : Q1 2025 Insights 🚀") ;;;
  df <- load_data file_path ;;
  f <- get_frame df ;;
  if is_empty f then
    emit (st_warning
            "No data available to display. Please check the file path or data format.")
  else
    df <- preprocess_data df ;;
    f <- get_frame df ;;
    let assignee_counts := value_counts (column_values Assignee f) in
    emit (st_plotly_chart (px_pie assignee_counts "Task Distribution Across Team")) ;;;
    fig_task_type_distribution <- task_distribution_by_type df ;;
    emit (st_plotly_chart fig_task_type_distribution) ;;;
    f <- get_frame df ;;
    let priority_counts := value_counts (column_values Priority f) in
    emit (st_plotly_chart
            (px_pie priority_counts "Task Distribution Across Priorities")) ;;;
    emit (st_header "📊 Bandwidth Efficiency Per Person: Actual vs Predicted") ;;;
    fig_efficiency_per_person <- bandwidth_efficiency_per_person df ;;
    emit (st_plotly_chart fig_efficiency_per_person) ;;;
    emit (st_header "📊 Task Type Split by Service") ;;;
    task_type_split_by_service df.

(** ** Predicates used in the statements *)

(** [pat] occurs in [text] when case is ignored: some contiguous part of
    [text] lowers to [pat]. *)
Definition occurs_nocase (pat text : string) : Prop :=
  exists pre mid post, text = (pre ++ mid ++ post)%string /\ Text.lower mid = pat.

(** The number of rows of a frame that satisfy a test. *)
Definition count (p : row -> bool) (f : frame) : nat := List.length (filter p f).

(** Days from 1970-01-01 to a date of the proleptic Gregorian calendar, and
    the instant, in nanoseconds, that a UTC date and time denotes. *)
Definition days_from_civil (y m d : Z) : Z :=
  let y := (if m <=? 2 then y - 1 else y)%Z in
  let era := (y / 400)%Z in
  let yoe := (y - era * 400)%Z in
  let mp := ((m + 9) mod 12)%Z in
  let doy := ((153 * mp + 2) / 5 + d - 1)%Z in
  let doe := (yoe * 365 + yoe / 4 - yoe / 100 + doy)%Z in
  (era * 146097 + doe - 719468)%Z.

Definition utc (y m d hh mm ss : Z) : Z :=
  ((days_from_civil y m d * 86400 + hh * 3600 + mm * 60 + ss) * 1000000000)%Z.

(** Running a computation: its outcome and the world it leaves. *)
Definition outcome {A : Type} (m : M A) (w : world) : result A := fst (m w).
Definition after {A : Type} (m : M A) (w : world) : world := snd (m w).

(** A computation that leaves every DataFrame as it found it. *)
Definition preserves_heap {A : Type} (m : M A) : Prop :=
  forall w, heap (after m w) = heap w.

(** The column writes of the classifiers, one row at a time. *)
Definition classify_split (r : row) : row :=
  set_Task_Type (Some (SplitByService.get_task_type (Labels r))) r.

Definition classify_distribution (r : row) : row :=
  set_Task_Type (Some (DistributionByType.get_task_type (Labels r))) r.

(** Sample records and stores for the concrete cases. *)
Definition issue (id labels status priority sprint : string) : row :=
  mk_row (Some id) None (Some labels) (Some status) (Some priority) EstMissing
         (Some sprint) None None None None None None.

(** The dtype of the Labels column of a frame that was read with these
    cells. *)
Definition labels_dtype (f : frame) : dtype :=
  match f with
  | [] => object
  | _ :: _ =>
      if existsb (fun r => negb (isna (Labels r))) f then object else float64
  end.

(** A store with these frames, each as it was read, and nothing on the
    display. *)
Definition store_of (frames : list frame) (files : string -> read_result) : world :=
  mk_world frames [] files (fun df => labels_dtype (nth df frames [])).

Definition no_files : string -> read_result := fun _ => Raises FileNotFoundError.

(** The test [ID == k] on one row. *)
Definition has_ID (k : option string) (r : row) : bool := cell_eqb k (ID r).

(** A record's label text carries the sub-task marker, case ignored. *)
Definition sub_task_marked (r : row) : Prop :=
  exists text, Labels r = Some text /\ occurs_nocase "sub-task" text.

(** A CSV line created 2025-01-01T00:00:00Z and completed
    2025-01-03T12:00:00Z. *)
Definition sample_line : csv_row :=
  mk_csv_row (Some "DO-1") None (Some "api") (Some "Done") (Some "P1")
             EstMissing (Some "JAN-S-1")
             (WellFormed (utc 2025 1 1 0 0 0)) (WellFormed (utc 2025 1 3 12 0 0))
             Blank Blank.

Definition one_file (lines : list csv_row) : string -> read_result :=
  fun _ => Table lines.

(** A CSV line of a completed record that has no label. *)
Definition unlabelled_line : csv_row :=
  mk_csv_row (Some "DO-3") None None (Some "Done") (Some "P1")
             EstMissing (Some "JAN-S-1")
             (WellFormed (utc 2025 1 1 0 0 0)) (WellFormed (utc 2025 1 3 12 0 0))
             Blank Blank.

(** A CSV line of a record created 2025-01-01T00:00:00Z and not completed. *)
Definition open_line : csv_row :=
  mk_csv_row (Some "DO-2") None (Some "api") (Some "Todo") (Some "P1")
             EstMissing (Some "JAN-S-1")
             (WellFormed (utc 2025 1 1 0 0 0)) Blank
             Blank Blank.

(** Two records with one identifier, the first a sub-task. *)
Definition sub_task_first : frame :=
  [issue "DO-7" "sub-task, api" "Done" "P1" "JAN-S-1";
   issue "DO-7" "bug, api" "Done" "P1" "JAN-S-1"].



(** The records of a priority, and those of them that are done. *)
Definition with_priority (p : string) (r : row) : bool := cell_is p (Priority r).

Definition done_with_priority (p : string) (r : row) : bool :=
  is_done r && cell_is p (Priority r).

(** The rate the specification gives: done over all, times 100. *)
Definition completion_rate (done total : nat) : Qc :=
  (Qc_of_nat done / Qc_of_nat total * Qc_of_Z 100)%Qc.


(** Four records of priority P1, three of them done, and one record of
    priority P2 that is not done. *)
Definition sample_priorities : frame :=
  [issue "DO-1" "api" "Done" "P1" "JAN-S-1";
   issue "DO-2" "api" "Done" "P1" "JAN-S-1";
   issue "DO-3" "web" "In Progress" "P1" "JAN-S-2";
   issue "DO-4" "web" "Done" "P1" "JAN-S-2";
   issue "DO-5" "app" "Todo" "P2" "JAN-S-2"].

(** A disk on which the file is present but may not be read. *)
Definition unreadable_file : string -> read_result := fun _ => Raises PermissionError.

(** What the dashboard shows when the file is not found. *)
Definition empty_state : list event :=
  [st_title "Direct Ordering Squad : Q1 2025 Insights 🚀";
   st_error ("File not found: " ++ file_path);
   st_warning
     "No data available to display. Please check the file path or data format."].

(** The records a service's chart is drawn from, and the services that
    have any. *)
Definition service_matches (service : string) (f : frame) : frame :=
  filter (fun r => Text.str_contains_nocase service (Labels r)) f.

Definition shown_services (f : frame) : list string :=
  filter (fun service => negb (is_empty (service_matches service f))) services.

Definition service_chart (f : frame) (service : string) : event :=
  st_plotly_chart
    (px_pie (value_counts
               (task_type_column (service_matches service (map classify_split f))))
            ("Task Type Split for " ++ upper service)).

(** The sum of the values of a series of counts. *)
Definition series_total (s : series) : Z :=
  fold_right Z.add 0%Z
    (map (fun kv => match snd kv with Int n => n | _ => 0%Z end) s).

(** The body of the loop over the services in [task_type_split_by_service]. *)
Definition service_body (df : ref) (service : string) : M unit :=
  f <- get_frame df ;;
  t <- get_dtype df ;;
  str_accessor t ;;;
  let service_df :=
    filter (fun r => Text.str_contains_nocase service (Labels r)) f in
  if negb (is_empty service_df) then
    let task_type_counts := value_counts (task_type_column service_df) in
    if negb (is_empty task_type_counts) then
      emit (st_plotly_chart
              (px_pie task_type_counts ("Task Type Split for " ++ upper service)))
    else ret tt
  else ret tt.

(** Three records with distinct identifiers, none of them a sub-task. *)
Definition clean_sample : frame :=
  [issue "DO-1" "api, bug" "Done" "P1" "JAN-S-1";
   issue "DO-2" "web" "Todo" "P2" "JAN-S-2";
   issue "DO-3" "infra-related" "Done" "P1" "FEB-S-3"].

(** A disk with a table that has a header and no lines. *)
Definition empty_table : string -> read_result := fun _ => Table [].

(** The figure of [bandwidth_efficiency_per_person] for a frame. *)
Definition per_person_figure (f : frame) : figure :=
  let filtered := map numeric_estimate (filter is_allowed (map clean_assignee f)) in
  let efficiency := person_efficiency filtered in
  let predicted_weeks := map predicted_week (index_of efficiency) in
  mk_figure BarChart "Bandwidth Efficiency Per Person: Actual vs Predicted"
    [("Predicted Efficiency (Person Weeks)",
      combine (index_of efficiency)
              (map (fun w => Float (Qc_of_Z w)) predicted_weeks));
     ("Actual Efficiency (Person Weeks)",
      map (fun kv => (fst kv, Float (snd kv))) efficiency)].

(** The records the dashboard draws from, and what it shows for them. *)
Definition cleaned_rows (lines : list csv_row) : frame :=
  filter (fun r => negb (is_sub_task r)) (drop_duplicates (map load_row lines)).

Definition dashboard_events (cleaned : frame) : list event :=
  let typed := map classify_distribution cleaned in
  [st_title "Direct Ordering Squad : Q1 2025 Insights 🚀";
   st_plotly_chart
     (px_pie (value_counts (column_values Assignee cleaned))
             "Task Distribution Across Team");
   st_plotly_chart
     (px_pie (value_counts (task_type_column typed))
             "Task Distribution Across Task Types");
   st_plotly_chart
     (px_pie (value_counts (column_values Priority typed))
             "Task Distribution Across Priorities");
   st_header "📊 Bandwidth Efficiency Per Person: Actual vs Predicted";
   st_plotly_chart (per_person_figure typed);
   st_header "📊 Task Type Split by Service"]
  ++ map (service_chart typed) (shown_services typed).

(** What the dashboard has shown when it reaches the per-person chart. *)
Definition dashboard_head (cleaned : frame) : list event :=
  let typed := map classify_distribution cleaned in
  [st_title "Direct Ordering Squad : Q1 2025 Insights 🚀";
   st_plotly_chart
     (px_pie (value_counts (column_values Assignee cleaned))
             "Task Distribution Across Team");
   st_plotly_chart
     (px_pie (value_counts (task_type_column typed))
             "Task Distribution Across Task Types");
   st_plotly_chart
     (px_pie (value_counts (column_values Priority typed))
             "Task Distribution Across Priorities");
   st_header "📊 Bandwidth Efficiency Per Person: Actual vs Predicted"].

Definition is_notice (e : event) : bool :=
  match e with
  | st_error _ | st_warning _ => true
  | _ => false
  end.

(** The cycle times that are present in a group of records. *)
Definition present_cycle_times (g : frame) : list Qc :=
  flat_map (fun c => match c with Some q => [q] | None => [] end)
           (map Cycle_Time g).


(** Records with and without a cycle time, in two sprints, and one record
    in no sprint. *)
Definition timed (id sprint : string) (days : option Qc) : row :=
  mk_row (Some id) None (Some "api") (Some "Done") (Some "P1") EstMissing
         (if String.eqb sprint "" then None else Some sprint)
         None None None None days None.

Definition sample_cycle_times : frame :=
  [timed "DO-1" "JAN-S-1" (Some (Q2Qc 2));
   timed "DO-2" "JAN-S-1" None;
   timed "DO-3" "JAN-S-1" (Some (Q2Qc 4));
   timed "DO-4" "JAN-S-2" None;
   timed "DO-5" "" (Some (Q2Qc 9))].

(** Two records with an assignee and one without. *)
Definition assigned (id : string) (assignee : option string) : row :=
  mk_row (Some id) assignee (Some "api") (Some "Done") (Some "P1")
         (EstNumber (Q2Qc 5)) (Some "JAN-S-1") None None None None None None.

Definition sample_team : frame :=
  [assigned "DO-1" (Some " Gagan@urbanpiper.com");
   assigned "DO-2" (Some "someone@urbanpiper.com");
   assigned "DO-3" None].

(** The number an estimate cell counts for: 0 when it is not a number. *)
Definition estimate_value (r : row) : Qc := fillna 0%Qc (to_numeric (Estimate r)).

(** The figure of [bandwidth_efficiency] for a frame. *)
Definition efficiency_figure (f : frame) : figure :=
  mk_figure BarChart "Bandwidth Efficiency: Actual vs Predicted"
    [("Person Weeks",
      [("Predicted Efficiency", Float (Qc_of_Z 12));
       ("Actual Efficiency",
        Float (fold_right Qcplus 0%Qc (map estimate_value f) / Qc_of_Z 5)%Qc)])].

(** The text of a record's assignee, empty when it is missing. *)
Definition assignee_text (r : row) : string :=
  match Assignee r with
  | Some s => s
  | None => ""
  end.

(** ** Text lemmas *)

Lemma prefix_iff (sub s : string) :
  String.prefix sub s = true <-> exists post, s = (sub ++ post)%string.
Proof.
  revert s; induction sub as [|c sub IH]; intros s.
  - split; [intros _; exists s; reflexivity | intros _; destruct s; reflexivity].
  - destruct s as [|d s]; simpl.
    + split; [discriminate | intros [post H]; discriminate].
    + destruct (ascii_dec c d) as [->|Hne].
      * rewrite IH. split; intros [post H]; exists post.
        -- now rewrite H.
        -- now inversion H.
      * split; [discriminate | intros [post H]; inversion H; congruence].
Qed.

Lemma contains_iff (sub s : string) :
  Text.contains sub s = true <-> exists pre post, s = (pre ++ sub ++ post)%string.
Proof.
  induction s as [|c s IH].
  - cbn [Text.contains]. rewrite orb_false_r, prefix_iff. split.
    + intros [post H]. exists "", post. exact H.
    + intros [pre [post H]]. destruct pre; simpl in H.
      * now exists post.
      * discriminate.
  - cbn [Text.contains]. rewrite orb_true_iff, prefix_iff, IH. split.
    + intros [[post H]|[pre [post H]]].
      * exists "", post. exact H.
      * exists (String c pre), post. simpl. now rewrite H.
    + intros [pre [post H]]. destruct pre as [|d pre]; simpl in H.
      * left. now exists post.
      * right. inversion H. now exists pre, post.
Qed.

Lemma lower_app (a b : string) :
  Text.lower (a ++ b)%string = (Text.lower a ++ Text.lower b)%string.
Proof. induction a as [|c a IH]; simpl; [reflexivity | now rewrite IH]. Qed.

Lemma lower_app_inv (s a b : string) :
  Text.lower s = (a ++ b)%string ->
  exists s1 s2, s = (s1 ++ s2)%string /\ Text.lower s1 = a /\ Text.lower s2 = b.
Proof.
  revert s; induction a as [|c a IH]; intros s H; simpl in H.
  - exists "", s. auto.
  - destruct s as [|d s]; simpl in H; [discriminate|].
    inversion H as [[Hc Hs]]. destruct (IH s Hs) as [s1 [s2 [E [L1 L2]]]].
    exists (String d s1), s2. simpl. subst. auto.
Qed.

(** Searching the lowered text is searching the text with case ignored. *)
Lemma contains_lower_iff (pat text : string) :
  Text.contains pat (Text.lower text) = true <-> occurs_nocase pat text.
Proof.
  rewrite contains_iff. unfold occurs_nocase. split.
  - intros [pre [post H]].
    destruct (lower_app_inv _ _ _ H) as [s1 [s2 [E [L1 L2]]]].
    destruct (lower_app_inv _ _ _ L2) as [s3 [s4 [E' [L3 L4]]]].
    exists s1, s3, s4. subst. auto.
  - intros [pre [mid [post [E L]]]]. subst.
    exists (Text.lower pre), (Text.lower post). now rewrite !lower_app.
Qed.

Lemma contains_false_iff (pat text : string) :
  Text.contains pat (Text.lower text) = false <-> ~ occurs_nocase pat text.
Proof.
  rewrite <- contains_lower_iff. destruct (Text.contains _ _); split; intros; congruence.
Qed.

(** ** Classifier *)


(** ** The store *)

Lemma update_length {A : Type} (i : nat) (x : A) (l : list A) :
  List.length (update i x l) = List.length l.
Proof.
  revert i; induction l as [|y l IH]; intros [|i]; simpl; auto.
Qed.

Lemma nth_update_same {A : Type} (i : nat) (x d : A) (l : list A) :
  i < List.length l -> nth i (update i x l) d = x.
Proof.
  revert i; induction l as [|y l IH]; intros [|i] H; simpl in *; try lia; auto.
  apply IH. lia.
Qed.

Lemma update_beyond {A : Type} (i : nat) (x : A) (l : list A) :
  List.length l <= i -> update i x l = l.
Proof.
  revert i; induction l as [|y l IH]; intros [|i] H; simpl in *; auto; try lia.
  f_equal. apply IH. lia.
Qed.

(** Writing [map g] of a frame back through its reference: the frame at the
    reference is the mapped one, whether or not the reference is live. *)
Lemma frame_at_update_map (g : row -> row) (h : list frame) (df : ref) :
  nth df (update df (map g (nth df h [])) h) [] = map g (nth df h []).
Proof.
  destruct (Nat.lt_ge_cases df (List.length h)) as [Hlt|Hge].
  - now apply nth_update_same.
  - rewrite update_beyond by exact Hge.
    rewrite !nth_overflow by exact Hge. reflexivity.
Qed.

Lemma bind_run {A B : Type} (m : M A) (k : A -> M B) (w w' : world) (a : A) :
  m w = (Ok a, w') -> bind m k w = k a w'.
Proof. intros H. unfold bind. now rewrite H. Qed.

Lemma preserves_ret {A : Type} (a : A) : preserves_heap (ret a).
Proof. intros w. reflexivity. Qed.

Lemma preserves_emit (e : event) : preserves_heap (emit e).
Proof. intros w. reflexivity. Qed.

Lemma preserves_get_frame (df : ref) : preserves_heap (get_frame df).
Proof. intros w. reflexivity. Qed.

Lemma preserves_get_dtype (df : ref) : preserves_heap (get_dtype df).
Proof. intros w. reflexivity. Qed.

Lemma preserves_raise {A : Type} (e : exn) : preserves_heap (@raise A e).
Proof. intros w. reflexivity. Qed.

Lemma preserves_str_accessor (t : dtype) : preserves_heap (str_accessor t).
Proof. destruct t; intros w; reflexivity. Qed.

Lemma preserves_bind {A B : Type} (m : M A) (k : A -> M B) :
  preserves_heap m -> (forall a, preserves_heap (k a)) -> preserves_heap (bind m k).
Proof.
  intros Hm Hk w. unfold after, bind. specialize (Hm w). unfold after in Hm.
  destruct (m w) as [[a|e] w']; simpl in *.
  - rewrite <- Hm. apply (Hk a w').
  - exact Hm.
Qed.

Lemma preserves_for_each {A : Type} (xs : list A) (body : A -> M unit) :
  (forall x, preserves_heap (body x)) -> preserves_heap (for_each xs body).
Proof.
  intros H. induction xs as [|x xs IH]; simpl.
  - apply preserves_ret.
  - apply preserves_bind; auto.
Qed.

Create HintDb store.
#[local] Hint Resolve preserves_ret preserves_emit preserves_get_frame
  preserves_get_dtype preserves_raise preserves_str_accessor : store.

(** The per-service loop touches the display only, also when it raises. *)
Lemma service_loop_preserves_heap (df : ref) :
  preserves_heap (for_each services (service_body df)).
Proof.
  apply preserves_for_each. intros service. unfold service_body.
  apply preserves_bind; auto with store. intros f.
  apply preserves_bind; auto with store. intros t.
  apply preserves_bind; auto with store. intros _.
  cbv zeta.
  destruct (negb _); auto with store.
  destruct (negb _); auto with store.
Qed.

Lemma after_get_frame {A : Type} (df : ref) (k : frame -> M A) (w : world) :
  after (bind (get_frame df) k) w = after (k (frame_at w df)) w.
Proof. reflexivity. Qed.

Lemma heap_after_bind {A B : Type} (m : M A) (k : A -> M B) (w : world) :
  (forall a, preserves_heap (k a)) ->
  heap (after (bind m k) w) = heap (after m w).
Proof.
  intros Hk. unfold after, bind.
  destruct (m w) as [[a|e] w']; simpl; [apply (Hk a w') | reflexivity].
Qed.

Lemma split_by_service_heap (w : world) (df : ref) :
  heap (after (task_type_split_by_service df) w)
  = update df
      (map (fun r => set_Task_Type (Some (SplitByService.get_task_type (Labels r))) r)
           (frame_at w df))
      (heap w).
Proof.
  unfold task_type_split_by_service.
  rewrite after_get_frame, heap_after_bind.
  - reflexivity.
  - intros _. apply (service_loop_preserves_heap df).
Qed.

Lemma distribution_by_type_heap (w : world) (df : ref) :
  heap (after (task_distribution_by_type df) w)
  = update df
      (map (fun r => set_Task_Type (Some (DistributionByType.get_task_type (Labels r))) r)
           (frame_at w df))
      (heap w).
Proof. reflexivity. Qed.

(** C9.  The two classifiers are the same function of the label text, and
    as pure functions of it they are deterministic; the two call sites
    therefore write the same Task Type column into the frame they are
    given. *)
Theorem classifiers_agree :
  (forall labels : option string,
      SplitByService.get_task_type labels = DistributionByType.get_task_type labels)
  /\ (forall (w : world) (df : ref),
         heap (after (task_type_split_by_service df) w)
         = heap (after (task_distribution_by_type df) w)).
Proof.
  split.
  - intros labels. reflexivity.
  - intros w df. rewrite split_by_service_heap, distribution_by_type_heap.
    reflexivity.
Qed.

(** ** Frame conditions of the aggregators *)

Lemma rename_sprint_fixed (r : row) :
  rename_sprint r = r <->
  Cycle_Name r <> Some "FEB-S-3" /\ Cycle_Name r <> Some "FEB-S-4".
Proof.
  destruct r as [i a l s p e c cr co up st ct tt].
  unfold rename_sprint, set_Cycle_Name; cbn [Cycle_Name ID Assignee Labels Status
    Priority Estimate Created Completed Updated Started Cycle_Time Task_Type].
  destruct c as [c|]; cbn [replace_cell].
  - cbn [lookup sprint_rename].
    destruct (String.eqb_spec c "FEB-S-3") as [->|H3].
    + split; [intros H; inversion H | intros [H _]; congruence].
    + destruct (String.eqb_spec c "FEB-S-4") as [->|H4].
      * split; [intros H; inversion H | intros [_ H]; congruence].
      * split; [intros _; split; congruence | reflexivity].
  - split; [intros _; split; discriminate | reflexivity].
Qed.

Lemma numeric_estimate_fixed (r : row) :
  numeric_estimate r = r <-> exists q, Estimate r = EstNumber q.
Proof.
  destruct r as [i a l s p e c cr co up st ct tt].
  unfold numeric_estimate, set_Estimate; cbn [Cycle_Name ID Assignee Labels Status
    Priority Estimate Created Completed Updated Started Cycle_Time Task_Type].
  destruct e as [q|t|]; cbn [to_numeric fillna].
  - split; [intros _; now exists q | reflexivity].
  - split; [intros H; inversion H | intros [q H]; discriminate].
  - split; [intros H; inversion H | intros [q H]; discriminate].
Qed.

Lemma update_last {A : Type} (h : list A) (x y : A) :
  update (List.length h) x (h ++ [y]) = h ++ [x].
Proof. induction h as [|z h IH]; simpl; [reflexivity | now rewrite IH]. Qed.

Lemma length_snoc {A : Type} (h : list A) (x : A) :
  List.length (h ++ [x]) = S (List.length h).
Proof. rewrite length_app. simpl. lia. Qed.

(** Reading the frame that was allocated last. *)
Ltac read_last :=
  repeat match goal with
         | |- context [@nth ?A (@List.length ?B ?h)
                             (@app ?C ?h' (@cons ?D ?x (@nil ?E))) ?d] =>
             let H := fresh in
             assert (H : @nth A (@List.length B h)
                              (@app C h' (@cons D x (@nil E))) d = x)
               by apply nth_middle;
             rewrite !H; clear H
         end.

(** A run of [bandwidth_efficiency_per_person]: the copy and the selection
    are two new frames; a frame without rows makes line 105 raise. *)
Lemma per_person_world (w : world) (df : ref) :
  bandwidth_efficiency_per_person df w
  = (if is_empty (frame_at w df) then Raise KeyError
     else Ok (per_person_figure (frame_at w df)),
     mk_world
       ((heap w ++ [map clean_assignee (frame_at w df)])
        ++ [map numeric_estimate
              (filter is_allowed (map clean_assignee (frame_at w df)))])
       (ui w) (disk w)
       (with_dtype (S (List.length (heap w))) (dtype_at w df)
          (with_dtype (List.length (heap w)) (dtype_at w df) (dtypes w)))).
Proof.
  unfold bandwidth_efficiency_per_person, bind, get_frame, get_dtype, new_frame,
    set_frame, read_estimate_column, frame_at.
  cbn [fst snd heap ui disk dtypes].
  set (f := nth df (heap w) []).
  rewrite nth_middle.
  rewrite (update_last (heap w) (map clean_assignee f) f).
  read_last.
  assert (Hne : is_empty (map clean_assignee f) = is_empty f) by (now destruct f).
  rewrite Hne.
  destruct (is_empty f) eqn:E.
  - destruct f; [|discriminate E]. unfold raise. now rewrite length_snoc.
  - unfold ret, raise. cbn [heap ui disk dtypes]. read_last.
    rewrite update_last. read_last. now rewrite length_snoc.
Qed.

Lemma per_person_heap (w : world) (df : ref) :
  firstn (List.length (heap w))
         (heap (after (bandwidth_efficiency_per_person df) w))
  = heap w.
Proof.
  unfold after. rewrite per_person_world. cbn [snd heap].
  rewrite <- app_assoc, firstn_app, Nat.sub_diag, firstn_all.
  cbn [firstn]. apply app_nil_r.
Qed.

(** C4, as the code has it.  Cycle-time mean, priority completion rate and
    per-person efficiency leave every DataFrame they find as it is (the
    last works on copies of its own).  The other four write one column of
    the frame they are given, in place, and leave every other field, every
    other frame and the number and order of the records as they are: sprint
    velocity writes Cycle Name (a record changes only if its sprint is
    FEB-S-3 or FEB-S-4), team bandwidth efficiency writes Estimate (a record
    changes only if its estimate is not a number), and the two task-type
    aggregators write Task Type. *)
Theorem aggregators_frame (w : world) (df : ref) :
  let f := frame_at w df in
  heap (after (task_completion_efficiency df) w) = heap w
  /\ heap (after (priority_vs_completion df) w) = heap w
  /\ firstn (List.length (heap w))
            (heap (after (bandwidth_efficiency_per_person df) w)) = heap w
  /\ (heap (after (sprint_velocity_trend df) w)
        = update df (map rename_sprint f) (heap w)
      /\ forall r, rename_sprint r = r <->
                   Cycle_Name r <> Some "FEB-S-3" /\ Cycle_Name r <> Some "FEB-S-4")
  /\ (heap (after (bandwidth_efficiency df) w)
        = update df (map numeric_estimate f) (heap w)
      /\ forall r, numeric_estimate r = r <-> exists q, Estimate r = EstNumber q)
  /\ heap (after (task_distribution_by_type df) w)
       = update df (map classify_distribution f) (heap w)
  /\ heap (after (task_type_split_by_service df) w)
       = update df (map classify_split f) (heap w).
Proof.
  intros f.
  split; [reflexivity|].
  split; [reflexivity|].
  split; [apply per_person_heap|].
  split; [split; [reflexivity | apply rename_sprint_fixed]|].
  split; [split; [reflexivity | apply numeric_estimate_fixed]|].
  split; [apply distribution_by_type_heap | apply split_by_service_heap].
Qed.

(** C4 as stated fails: sprint velocity rewrites the sprint of a record of
    its input. *)
Lemma sprint_velocity_changes_input :
  let w := store_of [[issue "DO-1" "api" "Done" "P1" "FEB-S-3"]] no_files in
  frame_at w 0 = [issue "DO-1" "api" "Done" "P1" "FEB-S-3"]
  /\ frame_at (after (sprint_velocity_trend 0) w) 0
     = [issue "DO-1" "api" "Done" "P1" "MAR-S-1"]
  /\ frame_at (after (sprint_velocity_trend 0) w) 0 <> frame_at w 0.
Proof.
  repeat split. intros H. vm_compute in H. discriminate H.
Qed.

(** ** Loader *)

Lemma load_data_found_run (w : world) (path : string) (lines : list csv_row) :
  disk w path = Table lines ->
  tz_aware csv_Completed lines = tz_aware csv_Created lines ->
  load_data path w
  = (Ok (List.length (heap w)),
     mk_world (heap w ++ [map load_row lines]) (ui w) (disk w)
              (with_dtype (List.length (heap w)) (read_dtype lines) (dtypes w))).
Proof.
  intros H Htz.
  unfold load_data, try_except, bind, read_csv, subtract_columns.
  rewrite H, Htz, Bool.eqb_reflx. reflexivity.
Qed.

Lemma load_data_type_error (w : world) (path : string) (lines : list csv_row) :
  disk w path = Table lines ->
  tz_aware csv_Completed lines <> tz_aware csv_Created lines ->
  load_data path w = (Raise TypeError, w).
Proof.
  intros H Htz.
  unfold load_data, try_except, bind, read_csv, subtract_columns.
  rewrite H.
  destruct (Bool.eqb _ _) eqn:E; [|reflexivity].
  apply Bool.eqb_prop in E. contradiction.
Qed.

Lemma load_data_found (w : world) (path : string) (lines : list csv_row) :
  disk w path = Table lines ->
  tz_aware csv_Completed lines = tz_aware csv_Created lines ->
  outcome (load_data path) w = Ok (List.length (heap w))
  /\ frame_at (after (load_data path) w) (List.length (heap w)) = map load_row lines
  /\ ui (after (load_data path) w) = ui w.
Proof.
  intros H Htz. unfold outcome, after.
  rewrite (load_data_found_run w path lines H Htz).
  cbn [fst snd frame_at heap ui]. repeat split.
  apply nth_middle.
Qed.

Lemma cycle_time_present (created completed : option Z) :
  cycle_time created completed <> None <->
  (exists c, created = Some c) /\ (exists d, completed = Some d).
Proof.
  destruct created as [c|], completed as [d|]; cbn [cycle_time isna orb negb].
  - split; [intros _; split; eauto | discriminate].
  - split; [intros H; now elim H | intros [_ [d H]]; discriminate].
  - split; [intros H; now elim H | intros [[c H] _]; discriminate].
  - split; [intros H; now elim H | intros [[c H] _]; discriminate].
Qed.

Lemma to_datetime_some (cell : raw_date) (ns : Z) :
  to_datetime cell = Some ns <-> cell = WellFormed ns.
Proof.
  destruct cell; simpl; split; intros H; try discriminate; now inversion H.
Qed.

Lemma tz_aware_false (column : csv_row -> raw_date) (lines : list csv_row) :
  tz_aware column lines = false <->
  forall l, In l lines -> forall ns, column l <> WellFormed ns.
Proof.
  unfold tz_aware. split.
  - intros H l Hl ns E.
    assert (X : existsb (fun l => negb (isna (to_datetime (column l)))) lines = true).
    { apply existsb_exists. exists l. split; [exact Hl|]. now rewrite E. }
    congruence.
  - intros H. destruct (existsb _ lines) eqn:E; [|reflexivity].
    apply existsb_exists in E. destruct E as [l [Hl E]].
    destruct (column l) as [| |ns] eqn:Ec; try discriminate E.
    elim (H l Hl ns Ec).
Qed.

Lemma tz_aware_true (column : csv_row -> raw_date) (lines : list csv_row) :
  tz_aware column lines = true <->
  exists l ns, In l lines /\ column l = WellFormed ns.
Proof.
  unfold tz_aware. rewrite existsb_exists. split.
  - intros [l [Hl E]]. destruct (column l) as [| |ns] eqn:Ec; try discriminate E.
    now exists l, ns.
  - intros [l [ns [Hl E]]]. exists l. split; [exact Hl|]. now rewrite E.
Qed.

(** C2.  The claim holds of every table in which the Created and the
    Completed column agree on carrying a time zone: [load_data] returns the
    frame of the converted lines, and in each record the cycle time is
    present exactly when the created and the completed cell both hold a
    well-formed timestamp, and absent, not zero, otherwise.  It fails where
    they disagree.  In a table in which some created cell is a well-formed
    timestamp and no completed cell is, every record should come out with
    its cycle time absent; the subtraction of line 23 raises [TypeError]
    instead, the handler does not catch it, and [load_data] returns no
    frame and shows nothing.  The same happens when some completed cell is
    well formed and no created cell is.  The record of the claim, created
    2025-01-01T00:00:00Z and completed 2025-01-03T12:00:00Z, has cycle time
    5/2: 216000 seconds over 86400, both of which float64 holds exactly. *)
Theorem load_data_open_records
  (w : world) (path : string) (lines : list csv_row)
  (Hfile : disk w path = Table lines) :
  ((exists l c, In l lines /\ csv_Created l = WellFormed c)
   /\ (forall l, In l lines -> forall d, csv_Completed l <> WellFormed d)
   -> (forall l, In l lines -> Cycle_Time (load_row l) = None)
      /\ outcome (load_data path) w = Raise TypeError
      /\ after (load_data path) w = w)
  /\ (tz_aware csv_Completed lines <> tz_aware csv_Created lines
      -> outcome (load_data path) w = Raise TypeError
         /\ after (load_data path) w = w)
  /\ (tz_aware csv_Completed lines = tz_aware csv_Created lines
      -> exists df,
           outcome (load_data path) w = Ok df
           /\ frame_at (after (load_data path) w) df = map load_row lines
           /\ forall l, In l lines ->
                (Cycle_Time (load_row l) <> None <->
                   (exists c, csv_Created l = WellFormed c)
                   /\ (exists d, csv_Completed l = WellFormed d))
                /\ (Cycle_Time (load_row l) = None
                    -> Cycle_Time (load_row l) <> Some 0%Qc))
  /\ Cycle_Time (load_row sample_line) = Some (Q2Qc (5 # 2)).
Proof.
  assert (Hraise : tz_aware csv_Completed lines <> tz_aware csv_Created lines
                   -> outcome (load_data path) w = Raise TypeError
                      /\ after (load_data path) w = w).
  { intros Htz. unfold outcome, after.
    rewrite (load_data_type_error w path lines Hfile Htz). split; reflexivity. }
  split; [|split; [exact Hraise|split]].
  - intros [Hcreated Hcompleted]. split.
    + intros l Hl. cbn [load_row Cycle_Time].
      destruct (cycle_time (to_datetime (csv_Created l))
                           (to_datetime (csv_Completed l))) as [q|] eqn:E;
        [|reflexivity].
      assert (X : cycle_time (to_datetime (csv_Created l))
                             (to_datetime (csv_Completed l)) <> None)
        by (rewrite E; discriminate).
      apply cycle_time_present in X. destruct X as [_ [d Hd]].
      apply to_datetime_some in Hd. elim (Hcompleted l Hl d Hd).
    + apply Hraise.
      apply tz_aware_true in Hcreated. apply tz_aware_false in Hcompleted.
      rewrite Hcreated, Hcompleted. discriminate.
  - intros Htz.
    destruct (load_data_found w path lines Hfile Htz) as [Hout [Hframe _]].
    exists (List.length (heap w)). split; [exact Hout|]. split; [exact Hframe|].
    intros l _. split.
    + cbn [load_row Cycle_Time]. rewrite cycle_time_present.
      split; intros [[c Hc] [d Hd]]; split.
      * exists c. now apply to_datetime_some.
      * exists d. now apply to_datetime_some.
      * exists c. now apply to_datetime_some.
      * exists d. now apply to_datetime_some.
    + intros H. rewrite H. discriminate.
  - cbn [load_row Cycle_Time sample_line csv_Created csv_Completed to_datetime
           cycle_time isna orb negb].
    f_equal. apply Qc_is_canon. vm_compute. reflexivity.
Qed.

Lemma load_data_open_records_witness :
  disk (store_of [] (one_file [open_line])) file_path = Table [open_line]
  /\ csv_Created open_line = WellFormed (utc 2025 1 1 0 0 0)
  /\ csv_Completed open_line = Blank
  /\ Cycle_Time (load_row open_line) = None
  /\ outcome (load_data file_path) (store_of [] (one_file [open_line]))
     = Raise TypeError.
Proof.
  split; [reflexivity|]. split; [reflexivity|]. split; [reflexivity|].
  destruct (load_data_open_records (store_of [] (one_file [open_line]))
              file_path [open_line] eq_refl) as [H _].
  assert (Hpre : (exists l c, In l [open_line] /\ csv_Created l = WellFormed c)
                 /\ (forall l, In l [open_line] ->
                       forall d, csv_Completed l <> WellFormed d)).
  { split.
    - exists open_line, (utc 2025 1 1 0 0 0). split; [now left | reflexivity].
    - intros l [<-|[]] d. discriminate. }
  destruct (H Hpre) as [Hnone [Hout _]].
  split; [apply Hnone; now left | exact Hout].
Defined.

(** ** Cleaner *)

Lemma cell_eqb_eq (a b : option string) : cell_eqb a b = true <-> a = b.
Proof.
  destruct a as [x|], b as [y|]; simpl; try (split; congruence).
  rewrite String.eqb_eq. split; congruence.
Qed.

Lemma cell_eqb_refl (a : option string) : cell_eqb a a = true.
Proof. now apply cell_eqb_eq. Qed.

Lemma seen_before_iff (k : option string) (seen : list (option string)) :
  seen_before k seen = true <-> In k seen.
Proof.
  unfold seen_before. rewrite existsb_exists. split.
  - intros [x [Hin Heq]]. apply cell_eqb_eq in Heq. now subst.
  - intros Hin. exists k. split; [exact Hin | apply cell_eqb_refl].
Qed.

(** Of the rows with identifier [k], the scan keeps the first one, unless
    [k] was met before the scan began. *)
Lemma drop_duplicates_from_keeps_first (k : option string) (f : frame) :
  forall seen,
    filter (has_ID k) (drop_duplicates_from seen f)
    = if seen_before k seen then []
      else match find (has_ID k) f with
           | Some first => [first]
           | None => []
           end.
Proof.
  induction f as [|r f IH]; intros seen; cbn [drop_duplicates_from find filter].
  - now destruct (seen_before k seen).
  - destruct (seen_before (ID r) seen) eqn:Hr.
    + rewrite IH. destruct (seen_before k seen) eqn:Hk; [reflexivity|].
      destruct (has_ID k r) eqn:Hkr; [|reflexivity].
      unfold has_ID in Hkr. apply cell_eqb_eq in Hkr. subst k. congruence.
    + cbn [filter]. rewrite IH. cbn [seen_before existsb].
      fold (seen_before k seen). fold (has_ID k r).
      destruct (has_ID k r) eqn:Hkr; cbn [orb].
      * unfold has_ID in Hkr. apply cell_eqb_eq in Hkr. subst k.
        now rewrite Hr.
      * reflexivity.
Qed.

Lemma drop_duplicates_from_fresh (f : frame) :
  forall seen r, In r (drop_duplicates_from seen f) -> ~ In (ID r) seen.
Proof.
  induction f as [|x f IH]; intros seen r Hin; cbn [drop_duplicates_from] in Hin.
  - destruct Hin.
  - destruct (seen_before (ID x) seen) eqn:Hx.
    + now apply IH.
    + destruct Hin as [->|Hin].
      * intros H. apply seen_before_iff in H. congruence.
      * intros H. apply (IH _ _ Hin). now right.
Qed.

Lemma drop_duplicates_from_NoDup (f : frame) :
  forall seen, NoDup (map ID (drop_duplicates_from seen f)).
Proof.
  induction f as [|x f IH]; intros seen; cbn [drop_duplicates_from].
  - constructor.
  - destruct (seen_before (ID x) seen); [apply IH|].
    cbn [map]. constructor; [|apply IH].
    intros H. apply in_map_iff in H. destruct H as [r [Heq Hin]].
    apply drop_duplicates_from_fresh in Hin. apply Hin. left. now symmetry.
Qed.

Lemma NoDup_map_filter {A B : Type} (g : A -> B) (p : A -> bool) (l : list A) :
  NoDup (map g l) -> NoDup (map g (filter p l)).
Proof.
  induction l as [|x l IH]; cbn [map filter]; intros H; [constructor|].
  inversion H as [|y l' Hnotin Hnodup]; subst.
  destruct (p x); cbn [map]; [|now apply IH].
  constructor; [|now apply IH].
  intros Hin. apply Hnotin. apply in_map_iff in Hin.
  destruct Hin as [r [Heq Hr]]. apply filter_In in Hr.
  apply in_map_iff. exists r. tauto.
Qed.

Lemma filter_comm {A : Type} (p q : A -> bool) (l : list A) :
  filter p (filter q l) = filter q (filter p l).
Proof.
  induction l as [|x l IH]; cbn [filter]; [reflexivity|].
  destruct (p x) eqn:Hp, (q x) eqn:Hq; cbn [filter]; rewrite ?Hp, ?Hq, IH; reflexivity.
Qed.

Lemma with_dtype_same (df : ref) (t : dtype) (ts : ref -> dtype) :
  with_dtype df t ts df = t.
Proof. unfold with_dtype. now rewrite Nat.eqb_refl. Qed.

(** A run of [preprocess_data].  The deduplicated frame is a new frame;
    with a Labels column of dtype [object] the frame without sub-tasks is
    another, and with dtype [float64] line 35 raises. *)
Lemma preprocess_data_world (w : world) (df : ref) :
  preprocess_data df w
  = match dtype_at w df with
    | object =>
        (Ok (S (List.length (heap w))),
         mk_world ((heap w ++ [drop_duplicates (frame_at w df)])
                   ++ [filter (fun r => negb (is_sub_task r))
                              (drop_duplicates (frame_at w df))])
                  (ui w) (disk w)
                  (with_dtype (S (List.length (heap w))) object
                     (with_dtype (List.length (heap w)) object (dtypes w))))
    | float64 =>
        (Raise AttributeError,
         mk_world (heap w ++ [drop_duplicates (frame_at w df)])
                  (ui w) (disk w)
                  (with_dtype (List.length (heap w)) float64 (dtypes w)))
    end.
Proof.
  unfold preprocess_data, bind, get_frame, get_dtype, new_frame, frame_at, dtype_at.
  cbn [fst snd heap ui disk dtypes]. rewrite nth_middle, with_dtype_same.
  destruct (dtypes w df); cbn [str_accessor]; unfold ret, raise.
  - cbn [heap ui disk dtypes]. now rewrite length_snoc.
  - reflexivity.
Qed.

Lemma preprocess_data_object (w : world) (df : ref) :
  dtype_at w df = object ->
  preprocess_data df w
  = (Ok (S (List.length (heap w))),
     mk_world ((heap w ++ [drop_duplicates (frame_at w df)])
               ++ [filter (fun r => negb (is_sub_task r))
                          (drop_duplicates (frame_at w df))])
              (ui w) (disk w)
              (with_dtype (S (List.length (heap w))) object
                 (with_dtype (List.length (heap w)) object (dtypes w)))).
Proof. intros H. now rewrite preprocess_data_world, H. Qed.

(** What [preprocess_data] returns and leaves when the Labels column is of
    dtype [object]: two new frames, the deduplicated one and, from it, the
    one without sub-tasks. *)
Lemma preprocess_data_run (w : world) (df : ref) :
  dtype_at w df = object ->
  let d := drop_duplicates (frame_at w df) in
  let out := S (List.length (heap w)) in
  outcome (preprocess_data df) w = Ok out
  /\ frame_at (after (preprocess_data df) w) out
     = filter (fun r => negb (is_sub_task r)) d
  /\ firstn (List.length (heap w)) (heap (after (preprocess_data df) w)) = heap w
  /\ dtype_at (after (preprocess_data df) w) out = object.
Proof.
  intros Hdtype d out.
  unfold outcome, after. rewrite preprocess_data_world, Hdtype.
  cbn [fst snd]. unfold frame_at, dtype_at. cbn [heap dtypes]. fold d.
  split; [reflexivity|].
  split; [|split].
  - subst out. rewrite <- (length_snoc (heap w) d). apply nth_middle.
  - rewrite <- app_assoc, firstn_app, Nat.sub_diag, firstn_all.
    cbn [firstn]. apply app_nil_r.
  - apply with_dtype_same.
Qed.

Lemma preprocess_data_raises (w : world) (df : ref) :
  dtype_at w df = float64 ->
  outcome (preprocess_data df) w = Raise AttributeError
  /\ ui (after (preprocess_data df) w) = ui w.
Proof.
  intros Hdtype. unfold outcome, after.
  rewrite preprocess_data_world, Hdtype. split; reflexivity.
Qed.

Lemma is_sub_task_iff (r : row) : is_sub_task r = true <-> sub_task_marked r.
Proof.
  unfold is_sub_task, sub_task_marked, Text.str_contains_nocase.
  destruct (Labels r) as [text|].
  - rewrite contains_lower_iff. split.
    + intros H. now exists text.
    + intros [t [Ht H]]. now inversion Ht; subst.
  - split; [discriminate | intros [t [Ht _]]; discriminate].
Qed.

(** C3, as the code has it, for a frame whose Labels column holds text
    (dtype [object]), which is where cleaning returns.  The identifiers of
    the cleaned records are pairwise distinct.  Deduplication keeps, of the
    records that share an identifier, exactly the first in input order; the
    sub-task filter runs after it, so the cleaned frame holds that first
    record unless its label text carries the sub-task marker, and never a
    later duplicate. *)
Theorem preprocess_keeps_first (w : world) (df : ref)
  (Hdtype : dtype_at w df = object) :
  let f := frame_at w df in
  exists out,
    outcome (preprocess_data df) w = Ok out
    /\ let cleaned := frame_at (after (preprocess_data df) w) out in
       NoDup (map ID cleaned)
       /\ (forall k, filter (has_ID k) (drop_duplicates f)
                     = match find (has_ID k) f with
                       | Some first => [first]
                       | None => []
                       end)
       /\ (forall k, filter (has_ID k) cleaned
                     = match find (has_ID k) f with
                       | Some first => if is_sub_task first then [] else [first]
                       | None => []
                       end).
Proof.
  intros f.
  destruct (preprocess_data_run w df Hdtype) as [Hout [Hframe _]].
  exists (S (List.length (heap w))). split; [exact Hout|].
  cbv zeta. rewrite Hframe. fold f.
  assert (Hfirst : forall k, filter (has_ID k) (drop_duplicates f)
                     = match find (has_ID k) f with
                       | Some first => [first]
                       | None => []
                       end).
  { intros k. unfold drop_duplicates.
    now rewrite drop_duplicates_from_keeps_first. }
  split; [|split].
  - apply NoDup_map_filter. apply drop_duplicates_from_NoDup.
  - exact Hfirst.
  - intros k. rewrite filter_comm, Hfirst.
    destruct (find (has_ID k) f) as [first|]; [|reflexivity].
    cbn [filter]. now destruct (is_sub_task first).
Qed.

Lemma preprocess_keeps_first_witness :
  let w := store_of [sub_task_first] no_files in
  dtype_at w 0 = object
  /\ exists out,
       outcome (preprocess_data 0) w = Ok out
       /\ NoDup (map ID (frame_at (after (preprocess_data 0) w) out))
       /\ filter (has_ID (Some "DO-7")) (drop_duplicates (frame_at w 0))
          = [issue "DO-7" "sub-task, api" "Done" "P1" "JAN-S-1"]
       /\ filter (has_ID (Some "DO-7")) (frame_at (after (preprocess_data 0) w) out)
          = [].
Proof.
  intros w. split; [reflexivity|].
  destruct (preprocess_keeps_first w 0 eq_refl) as [out [Hout [Hnodup [Hd Hc]]]].
  exists out. split; [exact Hout|]. split; [exact Hnodup|].
  split; [exact (Hd (Some "DO-7")) | exact (Hc (Some "DO-7"))].
Defined.

(** C3 as stated fails: when the first record of an identifier is a
    sub-task, cleaning keeps no record of that identifier. *)
Lemma first_occurrence_not_kept :
  let w := store_of [sub_task_first] no_files in
  find (has_ID (Some "DO-7")) (frame_at w 0)
  = Some (issue "DO-7" "sub-task, api" "Done" "P1" "JAN-S-1")
  /\ outcome (preprocess_data 0) w = Ok 2
  /\ frame_at (after (preprocess_data 0) w) 2 = []
  /\ ~ In (issue "DO-7" "sub-task, api" "Done" "P1" "JAN-S-1")
          (frame_at (after (preprocess_data 0) w) 2).
Proof.
  repeat split. intros H. vm_compute in H. exact H.
Qed.

Lemma drop_duplicates_from_In (f : frame) :
  forall seen r, In r (drop_duplicates_from seen f) -> In r f.
Proof.
  induction f as [|x f IH]; intros seen r Hin; cbn [drop_duplicates_from] in Hin.
  - destruct Hin.
  - destruct (seen_before (ID x) seen).
    + right. now apply (IH seen).
    + destruct Hin as [->|Hin]; [now left | right; now apply (IH (ID x :: seen))].
Qed.

Lemma sub_task_filter_iff (deduplicated : frame) (r : row) :
  In r (filter (fun r => negb (is_sub_task r)) deduplicated)
  <-> In r deduplicated /\ ~ sub_task_marked r.
Proof.
  rewrite filter_In, <- is_sub_task_iff.
  destruct (is_sub_task r); simpl; split; intros [H1 H2]; split; auto; congruence.
Qed.

Lemma read_dtype_float64 (lines : list csv_row) :
  lines <> [] ->
  (forall l, In l lines -> csv_Labels l = None) ->
  read_dtype lines = float64.
Proof.
  intros Hne Hnone. destruct lines as [|l0 ls]; [now elim Hne|].
  unfold read_dtype.
  destruct (existsb _ (l0 :: ls)) eqn:E; [|reflexivity].
  apply existsb_exists in E. destruct E as [l [Hl E]].
  rewrite (Hnone l Hl) in E. discriminate E.
Qed.

(** C7.  On a frame whose Labels column holds text (dtype [object]) the
    claim holds of the records that reach the filter, the deduplicated
    ones: cleaning drops exactly those whose label text carries "sub-task"
    with case ignored, adds none, and keeps a record without label text.
    It fails on a table that has lines and no label text at all.  No
    record of it carries the marker, so the filter should keep every
    record it is given; but [read_csv] gives such a Labels column the dtype
    [float64], the [.str] accessor of line 35 raises [AttributeError], and
    loading and cleaning the table returns no frame.  The argument
    [na=False] of that line shows that records without label text were
    meant to be kept. *)
Theorem preprocess_without_label_text
  (w : world) (path : string) (lines : list csv_row)
  (Hfile : disk w path = Table lines)
  (Htz : tz_aware csv_Completed lines = tz_aware csv_Created lines)
  (Hlines : lines <> [])
  (Hlabels : forall l, In l lines -> csv_Labels l = None) :
  (forall r, In r (map load_row lines) -> Labels r = None /\ ~ sub_task_marked r)
  /\ outcome (df <- load_data path ;; preprocess_data df) w = Raise AttributeError
  /\ ui (after (df <- load_data path ;; preprocess_data df) w) = ui w
  /\ (forall df, dtype_at w df = float64 ->
        outcome (preprocess_data df) w = Raise AttributeError)
  /\ (forall df, dtype_at w df = object ->
        let f := frame_at w df in
        let deduplicated := drop_duplicates f in
        exists out,
          outcome (preprocess_data df) w = Ok out
          /\ let cleaned := frame_at (after (preprocess_data df) w) out in
             (forall r, In r cleaned -> In r f)
             /\ (forall r, sub_task_marked r -> ~ In r cleaned)
             /\ (forall r, In r cleaned <-> In r deduplicated /\ ~ sub_task_marked r)
             /\ (forall r, In r deduplicated -> Labels r = None -> In r cleaned)).
Proof.
  split; [|split; [|split; [|split]]].
  - intros r Hin. apply in_map_iff in Hin. destruct Hin as [l [<- Hl]].
    unfold sub_task_marked. cbn [load_row Labels]. rewrite (Hlabels l Hl).
    split; [reflexivity|]. intros [text [Ht _]]. discriminate Ht.
  - unfold outcome.
    erewrite bind_run by (apply load_data_found_run; eassumption).
    rewrite preprocess_data_world. unfold dtype_at. cbn [dtypes].
    rewrite with_dtype_same, (read_dtype_float64 lines Hlines Hlabels).
    reflexivity.
  - unfold after.
    erewrite bind_run by (apply load_data_found_run; eassumption).
    rewrite preprocess_data_world. unfold dtype_at. cbn [dtypes].
    rewrite with_dtype_same, (read_dtype_float64 lines Hlines Hlabels).
    reflexivity.
  - intros df Hdtype. apply (preprocess_data_raises w df Hdtype).
  - intros df Hdtype f deduplicated.
    destruct (preprocess_data_run w df Hdtype) as [Hout [Hframe _]].
    exists (S (List.length (heap w))). split; [exact Hout|].
    cbv zeta. rewrite Hframe. fold f. fold deduplicated.
    split; [|split; [|split; [apply sub_task_filter_iff|]]].
    + intros r Hin. apply sub_task_filter_iff in Hin.
      apply (drop_duplicates_from_In f [] r). tauto.
    + intros r Hm Hin. apply sub_task_filter_iff in Hin. tauto.
    + intros r Hin Hnone. apply sub_task_filter_iff. split; [exact Hin|].
      intros [text [Ht _]]. congruence.
Qed.

Lemma preprocess_without_label_text_witness :
  let w := store_of [] (one_file [unlabelled_line]) in
  disk w file_path = Table [unlabelled_line]
  /\ csv_Labels unlabelled_line = None
  /\ ~ sub_task_marked (load_row unlabelled_line)
  /\ outcome (df <- load_data file_path ;; preprocess_data df) w
     = Raise AttributeError.
Proof.
  intros w. split; [reflexivity|]. split; [reflexivity|].
  assert (Hlabels : forall l, In l [unlabelled_line] -> csv_Labels l = None).
  { intros l [<-|[]]. reflexivity. }
  assert (Hlines : [unlabelled_line] <> []) by discriminate.
  destruct (preprocess_without_label_text w file_path [unlabelled_line]
              eq_refl eq_refl Hlines Hlabels) as [Hkept [Hout _]].
  split; [|exact Hout].
  apply (Hkept (load_row unlabelled_line)). now left.
Defined.

(** ** Grouping and counting *)

Lemma mem_iff (k : string) (l : list string) : mem k l = true <-> In k l.
Proof.
  unfold mem. rewrite existsb_exists. split.
  - intros [x [Hin Heq]]. apply String.eqb_eq in Heq. now subst.
  - intros Hin. exists k. split; [exact Hin | apply String.eqb_refl].
Qed.

Lemma unique_from_In (k : string) (l : list string) :
  forall seen, In k (unique_from seen l) <-> In k l /\ ~ In k seen.
Proof.
  induction l as [|x l IH]; intros seen; cbn [unique_from].
  - simpl. tauto.
  - destruct (mem x seen) eqn:Hx.
    + apply mem_iff in Hx. rewrite IH. simpl.
      split; [tauto|]. intros [[->|H] Hn]; [contradiction | tauto].
    + assert (~ In x seen) by (rewrite <- mem_iff; congruence).
      simpl. rewrite IH. simpl.
      destruct (string_dec x k) as [->|Hne]; [tauto|].
      split; [tauto|]. intros [[?|?] ?]; [contradiction | tauto].
Qed.

Lemma unique_In (k : string) (l : list string) : In k (unique l) <-> In k l.
Proof. unfold unique. rewrite unique_from_In. simpl. tauto. Qed.

Lemma insert_label_In (k x : string) (l : list string) :
  In k (insert_label x l) <-> k = x \/ In k l.
Proof.
  induction l as [|y l IH]; cbn [insert_label].
  - simpl. intuition.
  - destruct (String.leb x y); simpl; [intuition|]. rewrite IH. intuition.
Qed.

Lemma sort_labels_In (k : string) (l : list string) :
  In k (sort_labels l) <-> In k l.
Proof.
  induction l as [|x l IH]; cbn [sort_labels]; [tauto|].
  rewrite insert_label_In, IH. simpl. intuition.
Qed.

Lemma column_values_In (col : row -> option string) (k : string) (f : frame) :
  In k (column_values col f) <-> exists r, In r f /\ col r = Some k.
Proof.
  unfold column_values. rewrite in_flat_map. split.
  - intros [r [Hin Hk]]. exists r. split; [exact Hin|].
    destruct (col r) as [v|]; simpl in Hk; [|contradiction].
    destruct Hk as [->|[]]. reflexivity.
  - intros [r [Hin Hk]]. exists r. split; [exact Hin|]. rewrite Hk. now left.
Qed.

Lemma cell_is_iff (k : string) (c : option string) :
  cell_is k c = true <-> c = Some k.
Proof. unfold cell_is. apply cell_eqb_eq. Qed.

(** A label is a group key exactly when its group is not empty. *)
Lemma group_keys_In (col : row -> option string) (k : string) (f : frame) :
  In k (group_keys col f) <-> group col k f <> [].
Proof.
  unfold group_keys, group. rewrite sort_labels_In, unique_In, column_values_In.
  split.
  - intros [r [Hin Hk]] Hnil.
    assert (Hr : In r (filter (fun r => cell_is k (col r)) f)).
    { apply filter_In. split; [exact Hin | now apply cell_is_iff]. }
    rewrite Hnil in Hr. destruct Hr.
  - intros Hne. destruct (filter _ f) as [|r g] eqn:E; [congruence|].
    assert (Hr : In r (filter (fun r => cell_is k (col r)) f))
      by (rewrite E; now left).
    apply filter_In in Hr. exists r. split; [tauto|]. now apply cell_is_iff.
Qed.

Lemma lookup_map_keys {A : Type} (g : string -> A) (k : string) (keys : list string) :
  lookup k (map (fun x => (x, g x)) keys) = if mem k keys then Some (g k) else None.
Proof.
  induction keys as [|x keys IH]; cbn [map lookup mem existsb]; [reflexivity|].
  destruct (String.eqb_spec k x) as [->|Hne]; cbn [orb]; [reflexivity | exact IH].
Qed.

Lemma index_of_map_keys {A : Type} (g : string -> A) (keys : list string) :
  index_of (map (fun x => (x, g x)) keys) = keys.
Proof.
  unfold index_of. rewrite map_map. cbn [fst]. apply map_id.
Qed.

(** The size of a group, read off [groupby(...).size()] with 0 for a label
    that is not in its index. *)
Lemma groupby_size_lookup (col : row -> option string) (k : string) (f : frame) :
  lookup k (groupby_size col f)
  = match group col k f with
    | [] => None
    | g => Some (Int (Z.of_nat (List.length g)))
    end.
Proof.
  unfold groupby_size. rewrite lookup_map_keys.
  destruct (mem k (group_keys col f)) eqn:Hm.
  - apply mem_iff, group_keys_In in Hm.
    destruct (group col k f); [congruence | reflexivity].
  - destruct (group col k f) as [|r g] eqn:E; [reflexivity|].
    assert (In k (group_keys col f)) by (apply group_keys_In; congruence).
    apply mem_iff in H. congruence.
Qed.

Lemma filter_filter {A : Type} (p q : A -> bool) (l : list A) :
  filter p (filter q l) = filter (fun x => q x && p x) l.
Proof.
  induction l as [|x l IH]; cbn [filter]; [reflexivity|].
  destruct (q x); cbn [filter andb]; [destruct (p x)|]; now rewrite IH.
Qed.

Lemma filter_map_swap {A B : Type} (p : B -> bool) (g : A -> B) (l : list A) :
  filter p (map g l) = map g (filter (fun x => p (g x)) l).
Proof.
  induction l as [|x l IH]; cbn [filter map]; [reflexivity|].
  destruct (p (g x)); cbn [map]; now rewrite IH.
Qed.

(** ** Sprint velocity *)




(** ** Priority completion rate *)

Lemma Qc_of_Z_nonzero (z : Z) : z <> 0%Z -> Qc_is_zero (Qc_of_Z z) = false.
Proof.
  intros Hz. unfold Qc_is_zero, Qc_of_Z. cbn [Q2Qc this].
  destruct (Qeq_bool (Qred (inject_Z z)) 0) eqn:E; [|reflexivity].
  apply Qeq_bool_iff in E. rewrite Qred_correct in E.
  unfold Qeq, inject_Z in E. simpl in E. lia.
Qed.

Lemma lookup_series_scale (k : string) (s : series) (c : Z) :
  lookup k (series_scale s c) = option_map (fun v => num_scale v c) (lookup k s).
Proof.
  induction s as [|[x v] s IH]; cbn [series_scale map lookup fst snd option_map];
    [reflexivity|].
  destruct (String.eqb k x); [reflexivity | exact IH].
Qed.

Lemma done_group_empty (p : string) (f : frame) :
  filter (with_priority p) f = [] -> filter (done_with_priority p) f = [].
Proof.
  induction f as [|r f IH]; cbn [filter]; [reflexivity|].
  unfold done_with_priority at 1, with_priority at 1.
  destruct (cell_is p (Priority r)); [discriminate|].
  rewrite andb_false_r. exact IH.
Qed.

(** The value of the completion series at a priority. *)
Lemma priority_completion_lookup (p : string) (f : frame) :
  lookup p (priority_completion f)
  = match count (with_priority p) f with
    | O => None
    | S _ =>
        Some match count (done_with_priority p) f with
             | O => NaN
             | S _ => Float (completion_rate (count (done_with_priority p) f)
                                             (count (with_priority p) f))
             end
    end.
Proof.
  unfold priority_completion. rewrite lookup_series_scale.
  unfold series_div. rewrite lookup_map_keys.
  unfold groupby_size at 1 2. rewrite !index_of_map_keys.
  rewrite !groupby_size_lookup. unfold group. rewrite filter_filter.
  fold (with_priority p). fold (done_with_priority p). unfold count.
  destruct (filter (with_priority p) f) as [|r g] eqn:Eall.
  - rewrite (done_group_empty p f Eall).
    destruct (mem p _) eqn:Hm; [|reflexivity].
    apply mem_iff in Hm. rewrite sort_labels_In, unique_In, in_app_iff in Hm.
    rewrite !group_keys_In in Hm. unfold group in Hm.
    rewrite filter_filter in Hm.
    fold (with_priority p) in Hm. fold (done_with_priority p) in Hm.
    rewrite Eall, (done_group_empty p f Eall) in Hm. tauto.
  - assert (Hm : mem p (sort_labels
                          (unique (group_keys Priority (filter is_done f)
                                   ++ group_keys Priority f))) = true).
    { apply mem_iff. rewrite sort_labels_In, unique_In, in_app_iff. right.
      apply group_keys_In. unfold group. fold (with_priority p).
      rewrite Eall. discriminate. }
    rewrite Hm. cbn [option_map List.length]. f_equal.
    destruct (filter (done_with_priority p) f) as [|r' g']; [reflexivity|].
    cbn [List.length]. unfold num_div. cbn [num_value].
    rewrite Qc_of_Z_nonzero by lia. reflexivity.
Qed.

Lemma priority_vs_completion_run (w : world) (df : ref) :
  outcome (priority_vs_completion df) w
  = Ok (px_bar (priority_completion (frame_at w df)) "Completion Rate by Priority").
Proof. reflexivity. Qed.

Lemma done_le_total (p : string) (f : frame) :
  count (done_with_priority p) f <= count (with_priority p) f.
Proof.
  unfold count. induction f as [|r f IH]; cbn [filter]; [lia|].
  unfold done_with_priority at 1, with_priority at 1.
  destruct (cell_is p (Priority r)), (is_done r); cbn [andb List.length]; lia.
Qed.







(** C10.  A priority that has records but none marked "Done" is in the
    index of the completion series with the value NaN, which is not the
    float 0. *)
Theorem priority_without_done_is_nan (w : world) (df : ref) (p : string) :
  let f := frame_at w df in
  1 <= count (with_priority p) f ->
  count (done_with_priority p) f = 0 ->
  exists s,
    outcome (priority_vs_completion df) w
    = Ok (px_bar s "Completion Rate by Priority")
    /\ In p (index_of s)
    /\ lookup p s = Some NaN
    /\ lookup p s <> Some (Float 0%Qc).
Proof.
  intros f Htotal Hdone.
  exists (priority_completion f). split; [apply priority_vs_completion_run|].
  assert (H : lookup p (priority_completion f) = Some NaN).
  { rewrite priority_completion_lookup. rewrite Hdone.
    destruct (count (with_priority p) f); [lia | reflexivity]. }
  split; [|split; [exact H | rewrite H; discriminate]].
  clear - H. unfold index_of.
  induction (priority_completion f) as [|[x v] s IH]; cbn [lookup] in H;
    [discriminate|].
  cbn [map fst]. destruct (String.eqb_spec p x) as [->|Hne]; [now left|].
  right. now apply IH.
Qed.

Lemma priority_without_done_is_nan_witness :
  1 <= count (with_priority "P2")
             (frame_at (store_of [sample_priorities] no_files) 0)
  /\ count (done_with_priority "P2")
           (frame_at (store_of [sample_priorities] no_files) 0) = 0
  /\ exists s,
      outcome (priority_vs_completion 0) (store_of [sample_priorities] no_files)
      = Ok (px_bar s "Completion Rate by Priority")
      /\ In "P2" (index_of s)
      /\ lookup "P2" s = Some NaN
      /\ lookup "P2" s <> Some (Float 0%Qc).
Proof.
  assert (H1 : 1 <= count (with_priority "P2")
                          (frame_at (store_of [sample_priorities] no_files) 0))
    by (vm_compute; lia).
  assert (H2 : count (done_with_priority "P2")
                     (frame_at (store_of [sample_priorities] no_files) 0) = 0)
    by reflexivity.
  split; [exact H1|]. split; [exact H2|].
  exact (priority_without_done_is_nan
           (store_of [sample_priorities] no_files) 0 "P2" H1 H2).
Defined.

(** ** Missing source *)

Lemma load_data_not_found (w : world) (path : string) :
  disk w path = Raises FileNotFoundError ->
  load_data path w
  = (Ok (List.length (heap w)),
     mk_world (heap w ++ [[]]) (ui w ++ [st_error ("File not found: " ++ path)])
              (disk w) (with_dtype (List.length (heap w)) object (dtypes w))).
Proof.
  intros H. unfold load_data, try_except, bind, read_csv. rewrite H. reflexivity.
Qed.

(** C8, as the code has it.  When [read_csv] does not find the file, the
    loader reports it and returns an empty frame, and the dashboard shows
    its title, the error and the warning, draws no chart and returns
    normally. *)
Theorem missing_file_gives_empty_state (w : world) :
  disk w file_path = Raises FileNotFoundError ->
  (exists df,
      outcome (load_data file_path) w = Ok df
      /\ frame_at (after (load_data file_path) w) df = [])
  /\ outcome create_dashboard w = Ok tt
  /\ ui (after create_dashboard w) = ui w ++ empty_state
  /\ In (st_warning
           "No data available to display. Please check the file path or data format.")
        empty_state
  /\ filter is_chart empty_state = [].
Proof.
  intros H. split; [|split; [|split; [|split]]].
  - exists (List.length (heap w)).
    unfold outcome, after. rewrite (load_data_not_found w file_path H).
    cbn [fst snd frame_at heap]. split; [reflexivity | apply nth_middle].
  - unfold outcome, create_dashboard, bind at 1, emit at 1. cbn [fst snd].
    unfold bind at 1. rewrite load_data_not_found by exact H.
    unfold bind, get_frame, frame_at. cbn [heap]. rewrite nth_middle.
    reflexivity.
  - unfold after, create_dashboard, bind at 1, emit at 1. cbn [fst snd].
    unfold bind at 1. rewrite load_data_not_found by exact H.
    unfold bind, get_frame, frame_at. cbn [heap]. rewrite nth_middle.
    cbn [is_empty emit snd ui]. rewrite <- !app_assoc. reflexivity.
  - right. right. left. reflexivity.
  - reflexivity.
Qed.

Lemma missing_file_gives_empty_state_witness :
  disk (store_of [] no_files) file_path = Raises FileNotFoundError
  /\ outcome create_dashboard (store_of [] no_files) = Ok tt
  /\ ui (after create_dashboard (store_of [] no_files)) = [] ++ empty_state.
Proof.
  split; [reflexivity|].
  destruct (missing_file_gives_empty_state (store_of [] no_files) eq_refl)
    as [_ [H1 [H2 _]]].
  split; [exact H1 | exact H2].
Defined.

(** C8 as stated fails: a file that is there but may not be read makes
    [read_csv] raise PermissionError, which the loader does not catch; the
    dashboard stops with that error after its title, without the warning. *)
Lemma unreadable_file_crashes :
  let w := store_of [] unreadable_file in
  disk w file_path = Raises PermissionError
  /\ outcome (load_data file_path) w = Raise PermissionError
  /\ outcome create_dashboard w = Raise PermissionError
  /\ ui (after create_dashboard w)
     = [st_title "Direct Ordering Squad : Q1 2025 Insights 🚀"]
  /\ outcome create_dashboard w <> Ok tt.
Proof.
  cbv zeta. repeat split. intros H. vm_compute in H. discriminate H.
Qed.

(** ** Further properties of the classifier and of the service split *)

Lemma append_assoc (a b c : string) :
  ((a ++ b) ++ c)%string = (a ++ b ++ c)%string.
Proof. induction a as [|x a IH]; simpl; [reflexivity | now rewrite IH]. Qed.

(** A text that holds [b] holds every part of [b]. *)
Lemma contains_trans (a b s : string) :
  Text.contains a b = true -> Text.contains b s = true -> Text.contains a s = true.
Proof.
  rewrite !contains_iff. intros [p1 [q1 Hb]] [p2 [q2 Hs]].
  exists (p2 ++ p1)%string, (q1 ++ q2)%string.
  rewrite Hs, Hb. now rewrite !append_assoc.
Qed.


(** X2.  The per-service filters overlap: a record that the service
    "atlas-web" matches is matched by "web" as well, so it is counted in
    both charts; in general a service whose name lies inside another's
    matches every record the other matches. *)
Theorem service_filters_overlap (labels : option string) :
  (forall inner outer : string,
      Text.contains inner outer = true ->
      Text.str_contains_nocase outer labels = true ->
      Text.str_contains_nocase inner labels = true)
  /\ (Text.str_contains_nocase "atlas-web" labels = true ->
      Text.str_contains_nocase "web" labels = true)
  /\ In "atlas-web" services /\ In "web" services.
Proof.
  assert (H : forall inner outer : string,
             Text.contains inner outer = true ->
             Text.str_contains_nocase outer labels = true ->
             Text.str_contains_nocase inner labels = true).
  { intros inner outer Hio. unfold Text.str_contains_nocase.
    destruct labels as [text|]; [|discriminate].
    now apply contains_trans. }
  split; [exact H|]. split; [apply H; reflexivity|].
  split; simpl; tauto.
Qed.

Lemma split_by_service_unfold (df : ref) :
  task_type_split_by_service df
  = (f <- get_frame df ;;
     set_frame df (map classify_split f) ;;;
     for_each services (service_body df)).
Proof. reflexivity. Qed.

Lemma insert_count_not_nil (x : string * nat) (l : list (string * nat)) :
  insert_count x l <> [].
Proof. destruct l as [|y l]; simpl; [|destruct (snd y <=? snd x)]; discriminate. Qed.

Lemma value_counts_nil (values : list string) :
  value_counts values = [] <-> values = [].
Proof.
  split; [|intros ->; reflexivity].
  destruct values as [|v values]; [reflexivity|].
  unfold value_counts, unique. cbn [unique_from mem existsb map fold_right].
  intros H. apply map_eq_nil in H. now apply insert_count_not_nil in H.
Qed.

Lemma service_matches_classified (service : string) (f : frame) :
  service_matches service (map classify_split f)
  = map classify_split (service_matches service f).
Proof. unfold service_matches. now rewrite filter_map_swap. Qed.

Lemma task_type_column_classified (f : frame) :
  task_type_column (map classify_split f)
  = map (fun r => task_type_name (SplitByService.get_task_type (Labels r))) f.
Proof.
  unfold task_type_column, column_values.
  induction f as [|r f IH]; [reflexivity|].
  cbn [map flat_map]. rewrite IH. reflexivity.
Qed.

Lemma service_body_run (df : ref) (service : string) (h : list frame)
      (u : list event) (d : string -> read_result) (t : ref -> dtype) :
  t df = object ->
  let F : frame := nth df h [] in
  let counts := value_counts (task_type_column (service_matches service F)) in
  service_body df service (mk_world h u d t)
  = (Ok tt,
     mk_world h
       (u ++ if negb (is_empty (service_matches service F))
                && negb (is_empty counts)
             then [st_plotly_chart
                     (px_pie counts ("Task Type Split for " ++ upper service))]
             else [])
       d t).
Proof.
  intros Ht F counts.
  unfold service_body, bind, get_frame, get_dtype, frame_at, dtype_at.
  cbn [heap dtypes fst snd]. rewrite Ht. cbn [str_accessor ret fst snd heap].
  fold F. fold (service_matches service F). fold counts.
  destruct (is_empty (service_matches service F)); cbn [negb andb].
  - unfold ret. now rewrite app_nil_r.
  - destruct (is_empty counts); cbn [negb].
    + unfold ret. now rewrite app_nil_r.
    + reflexivity.
Qed.

(** One pass over a list of services: a chart for each service whose
    records give a count, in the order of the list. *)
Lemma service_loop_run (df : ref) (xs : list string) :
  forall (h : list frame) (u : list event) (d : string -> read_result)
         (t : ref -> dtype),
    t df = object ->
    let F : frame := nth df h [] in
    for_each xs (service_body df) (mk_world h u d t)
    = (Ok tt,
       mk_world h
         (u ++ map (fun service =>
                      st_plotly_chart
                        (px_pie (value_counts (task_type_column (service_matches service F)))
                                ("Task Type Split for " ++ upper service)))
                   (filter (fun service =>
                              negb (is_empty (service_matches service F))
                              && negb (is_empty (value_counts
                                                   (task_type_column
                                                      (service_matches service F)))))
                           xs))
         d t).
Proof.
  induction xs as [|x xs IH]; intros h u d t Ht F.
  - cbn [for_each filter map]. unfold ret. now rewrite app_nil_r.
  - cbn [for_each filter]. unfold bind at 1.
    rewrite service_body_run by exact Ht. cbv zeta.
    rewrite IH by exact Ht. cbv zeta. subst F.
    destruct (negb (is_empty (service_matches x (nth df h [])))
              && negb (is_empty (value_counts
                                   (task_type_column
                                      (service_matches x (nth df h [])))))).
    + cbn [map]. now rewrite <- app_assoc.
    + now rewrite app_nil_r.
Qed.

Lemma split_by_service_run (w : world) (df : ref) :
  dtype_at w df = object ->
  task_type_split_by_service df w
  = (Ok tt,
     mk_world (update df (map classify_split (frame_at w df)) (heap w))
              (ui w ++ map (service_chart (frame_at w df))
                           (shown_services (frame_at w df)))
              (disk w) (dtypes w)).
Proof.
  intros Hdtype. rewrite split_by_service_unfold.
  unfold bind at 1 2, get_frame, set_frame. cbn [fst snd].
  rewrite service_loop_run by exact Hdtype. cbv zeta.
  unfold frame_at. rewrite frame_at_update_map. fold (frame_at w df).
  f_equal. f_equal. f_equal.
  unfold shown_services, service_chart.
  f_equal. apply filter_ext. intros service.
  rewrite service_matches_classified, task_type_column_classified.
  destruct (service_matches service (frame_at w df)) as [|r g]; [reflexivity|].
  cbn [map is_empty negb andb].
  destruct (value_counts _) eqn:E; [|reflexivity].
  apply value_counts_nil in E. discriminate E.
Qed.

(** X3.  On a frame whose Labels column holds text (dtype [object]), the
    per-service split returns normally and draws one pie chart for each
    service, in the order of the service list, whose name occurs with case
    ignored in the label text of at least one record; a service that
    matches no record gets no chart.  It draws nothing else. *)
Theorem split_by_service_charts (w : world) (df : ref)
  (Hdtype : dtype_at w df = object) :
  let f := frame_at w df in
  outcome (task_type_split_by_service df) w = Ok tt
  /\ ui (after (task_type_split_by_service df) w)
     = ui w ++ map (service_chart f) (shown_services f)
  /\ (forall service,
         In service (shown_services f)
         <-> In service services
             /\ exists r text, In r f /\ Labels r = Some text
                               /\ occurs_nocase service text).
Proof.
  intros f. unfold outcome, after.
  rewrite split_by_service_run by exact Hdtype. cbn [fst snd ui].
  split; [reflexivity|]. split; [reflexivity|].
  intros service. unfold shown_services. rewrite filter_In.
  apply and_iff_compat_l. unfold service_matches. split.
  - destruct (filter _ f) as [|r g] eqn:E; [discriminate|]. intros _.
    assert (Hr : In r (filter (fun r => Text.str_contains_nocase service (Labels r)) f))
      by (rewrite E; now left).
    apply filter_In in Hr. destruct Hr as [Hin Hc].
    unfold Text.str_contains_nocase in Hc.
    destruct (Labels r) as [text|] eqn:El; [|discriminate].
    exists r, text. repeat split; auto. now apply contains_lower_iff.
  - intros [r [text [Hin [Hl Ho]]]].
    assert (Hr : In r (filter (fun r => Text.str_contains_nocase service (Labels r)) f)).
    { apply filter_In. split; [exact Hin|].
      unfold Text.str_contains_nocase. rewrite Hl. now apply contains_lower_iff. }
    destruct (filter _ f); [destruct Hr | reflexivity].
Qed.

Lemma split_by_service_charts_witness :
  let w := store_of [clean_sample] no_files in
  dtype_at w 0 = object
  /\ outcome (task_type_split_by_service 0) w = Ok tt
  /\ shown_services clean_sample = ["api"; "web"]
  /\ ui (after (task_type_split_by_service 0) w)
     = [] ++ map (service_chart clean_sample) (shown_services clean_sample).
Proof.
  intros w. split; [reflexivity|].
  destruct (split_by_service_charts w 0 eq_refl) as [Hout [Hui _]].
  split; [exact Hout|]. split; [reflexivity | exact Hui].
Defined.

(** ** Further properties of the cleaner *)

Lemma drop_duplicates_from_distinct (f : frame) :
  forall seen,
    NoDup (map ID f) ->
    (forall r, In r f -> ~ In (ID r) seen) ->
    drop_duplicates_from seen f = f.
Proof.
  induction f as [|x f IH]; intros seen Hnd Hfresh; cbn [drop_duplicates_from];
    [reflexivity|].
  cbn [map] in Hnd. inversion Hnd as [|y l Hnotin Hnd']; subst.
  destruct (seen_before (ID x) seen) eqn:Hx.
  - apply seen_before_iff in Hx. elim (Hfresh x (or_introl eq_refl) Hx).
  - f_equal. apply IH; [exact Hnd'|].
    intros r Hr [Heq|Hin].
    + apply Hnotin. rewrite Heq. now apply in_map.
    + apply (Hfresh r (or_intror Hr) Hin).
Qed.

Lemma filter_all {A : Type} (p : A -> bool) (l : list A) :
  (forall x, In x l -> p x = true) -> filter p l = l.
Proof.
  induction l as [|x l IH]; intros H; cbn [filter]; [reflexivity|].
  rewrite (H x (or_introl eq_refl)). f_equal. apply IH.
  intros y Hy. apply H. now right.
Qed.

Lemma clean_fixed (f : frame) :
  NoDup (map ID f) ->
  (forall r, In r f -> is_sub_task r = false) ->
  filter (fun r => negb (is_sub_task r)) (drop_duplicates f) = f.
Proof.
  intros Hnd Hsub. unfold drop_duplicates.
  rewrite drop_duplicates_from_distinct; auto.
  apply filter_all. intros r Hr. now rewrite (Hsub r Hr).
Qed.

(** X4.  Cleaning changes nothing in a frame that is already clean: when
    the Labels column holds text (dtype [object]), the identifiers are
    pairwise distinct and no label text carries the sub-task marker, the
    cleaned frame is the input frame, records and order alike. *)
Theorem preprocess_clean_input (w : world) (df : ref) :
  dtype_at w df = object ->
  NoDup (map ID (frame_at w df)) ->
  (forall r, In r (frame_at w df) -> ~ sub_task_marked r) ->
  exists out,
    outcome (preprocess_data df) w = Ok out
    /\ frame_at (after (preprocess_data df) w) out = frame_at w df.
Proof.
  intros Hdtype Hnd Hsub.
  destruct (preprocess_data_run w df Hdtype) as [Hout [Hframe _]].
  exists (S (List.length (heap w))). split; [exact Hout|].
  rewrite Hframe. apply clean_fixed; [exact Hnd|].
  intros r Hr. specialize (Hsub r Hr). rewrite <- is_sub_task_iff in Hsub.
  now destruct (is_sub_task r).
Qed.

Lemma preprocess_clean_input_witness :
  dtype_at (store_of [clean_sample] no_files) 0 = object
  /\ NoDup (map ID (frame_at (store_of [clean_sample] no_files) 0))
  /\ (forall r, In r (frame_at (store_of [clean_sample] no_files) 0) ->
                ~ sub_task_marked r)
  /\ exists out,
      outcome (preprocess_data 0) (store_of [clean_sample] no_files) = Ok out
      /\ frame_at (after (preprocess_data 0) (store_of [clean_sample] no_files)) out
         = clean_sample.
Proof.
  assert (H1 : NoDup (map ID (frame_at (store_of [clean_sample] no_files) 0))).
  { cbn. repeat constructor; simpl; intuition discriminate. }
  assert (H2 : forall r, In r (frame_at (store_of [clean_sample] no_files) 0) ->
                         ~ sub_task_marked r).
  { intros r Hr. rewrite <- is_sub_task_iff.
    cbn in Hr. destruct Hr as [<-|[<-|[<-|[]]]]; vm_compute; discriminate. }
  split; [reflexivity|]. split; [exact H1|]. split; [exact H2|].
  exact (preprocess_clean_input (store_of [clean_sample] no_files) 0 eq_refl H1 H2).
Defined.

(** X5.  On a frame whose Labels column holds text (dtype [object]),
    cleaning is idempotent and touches nothing it is given: it returns a
    new frame, leaves every existing frame (its input included) and the
    display as they were, and cleaning its result again returns a frame
    equal to that result. *)
Theorem preprocess_idempotent (w : world) (df : ref)
  (Hdtype : dtype_at w df = object) :
  exists out again,
    outcome (preprocess_data df) w = Ok out
    /\ firstn (List.length (heap w)) (heap (after (preprocess_data df) w)) = heap w
    /\ ui (after (preprocess_data df) w) = ui w
    /\ outcome (preprocess_data out) (after (preprocess_data df) w) = Ok again
    /\ frame_at (after (preprocess_data out) (after (preprocess_data df) w)) again
       = frame_at (after (preprocess_data df) w) out.
Proof.
  destruct (preprocess_data_run w df Hdtype) as [Hout [Hframe [Hheap Hdtype1]]].
  assert (Hui : ui (after (preprocess_data df) w) = ui w).
  { unfold after. now rewrite preprocess_data_world, Hdtype. }
  set (w1 := after (preprocess_data df) w) in *.
  destruct (preprocess_data_run w1 (S (List.length (heap w))) Hdtype1)
    as [Hout2 [Hframe2 _]].
  exists (S (List.length (heap w))), (S (List.length (heap w1))).
  split; [exact Hout|]. split; [exact Hheap|]. split; [exact Hui|].
  split; [exact Hout2|]. rewrite Hframe2, Hframe.
  apply clean_fixed.
  - apply NoDup_map_filter. apply drop_duplicates_from_NoDup.
  - intros r Hr. apply filter_In in Hr. destruct Hr as [_ Hr].
    now destruct (is_sub_task r).
Qed.

Lemma preprocess_idempotent_witness :
  let w := store_of [sub_task_first] no_files in
  dtype_at w 0 = object
  /\ exists out again,
       outcome (preprocess_data 0) w = Ok out
       /\ outcome (preprocess_data out) (after (preprocess_data 0) w) = Ok again
       /\ frame_at (after (preprocess_data out) (after (preprocess_data 0) w)) again
          = frame_at (after (preprocess_data 0) w) out.
Proof.
  intros w. split; [reflexivity|].
  destruct (preprocess_idempotent w 0 eq_refl)
    as [out [again [H1 [_ [_ [H2 H3]]]]]].
  exists out, again. split; [exact H1|]. split; [exact H2 | exact H3].
Defined.

(** ** Further properties of the loader and of the dashboard *)

Lemma exn_not_found_dec (e : exn) :
  {e = FileNotFoundError} + {e <> FileNotFoundError}.
Proof. destruct e; (now left) || (right; discriminate). Qed.

(** X6.  The loader raises the errors of [read_csv] other than
    FileNotFoundError, and [TypeError] for a table whose Created and
    Completed columns disagree on carrying a time zone; it raises nothing
    else, and never FileNotFoundError.  It reports on the display only when
    the file is not found, with one error message naming the path; and it
    leaves every existing frame as it was. *)
Theorem load_data_errors (w : world) (path : string) :
  (forall e, outcome (load_data path) w = Raise e
             <-> (disk w path = Raises e /\ e <> FileNotFoundError)
                 \/ (e = TypeError
                     /\ exists lines,
                          disk w path = Table lines
                          /\ tz_aware csv_Completed lines
                             <> tz_aware csv_Created lines))
  /\ outcome (load_data path) w <> Raise FileNotFoundError
  /\ ui (after (load_data path) w)
     = ui w ++ match disk w path with
               | Raises FileNotFoundError => [st_error ("File not found: " ++ path)]
               | _ => []
               end
  /\ firstn (List.length (heap w)) (heap (after (load_data path) w)) = heap w.
Proof.
  destruct (disk w path) as [e|lines] eqn:E.
  - unfold outcome, after, load_data, try_except, bind, read_csv. rewrite E.
    destruct (exn_not_found_dec e) as [->|Hne].
    + cbn [fst snd emit new_frame heap ui disk]. split.
      * intros e'. split; [discriminate|].
        intros [[H1 H2]|[_ [lines [H _]]]]; [inversion H1; congruence | discriminate].
      * split; [discriminate|]. split; [reflexivity|].
        rewrite firstn_app, Nat.sub_diag, firstn_all. cbn [firstn]. apply app_nil_r.
    + destruct e; try (elim Hne; reflexivity);
        (cbn [fst snd raise heap ui]; split;
         [ intros e'; split;
           [ intros H; inversion H; subst; left; split; [reflexivity | discriminate]
           | intros [[H1 _]|[_ [lines [H _]]]]; [now inversion H1 | discriminate] ]
         | split; [discriminate|];
           split; [now rewrite app_nil_r | apply firstn_all] ]).
  - destruct (Bool.bool_dec (tz_aware csv_Completed lines)
                            (tz_aware csv_Created lines)) as [Htz|Htz].
    + unfold outcome, after. rewrite (load_data_found_run w path lines E Htz).
      cbn [fst snd heap ui]. split.
      * intros e'. split; [discriminate|].
        intros [[H _]|[_ [lines' [H Hne]]]]; [discriminate|].
        inversion H; subst. contradiction.
      * split; [discriminate|]. split; [now rewrite app_nil_r|].
        rewrite firstn_app, Nat.sub_diag, firstn_all. cbn [firstn]. apply app_nil_r.
    + unfold outcome, after. rewrite (load_data_type_error w path lines E Htz).
      cbn [fst snd]. split.
      * intros e'. split.
        -- intros H. inversion H; subst. right. split; [reflexivity|].
           now exists lines.
        -- intros [[H _]|[-> _]]; [discriminate | reflexivity].
      * split; [discriminate|]. split; [now rewrite app_nil_r | apply firstn_all].
Qed.

Lemma distribution_by_type_run (w : world) (df : ref) :
  task_distribution_by_type df w
  = (Ok (px_pie (value_counts
                   (task_type_column (map classify_distribution (frame_at w df))))
                "Task Distribution Across Task Types"),
     mk_world (update df (map classify_distribution (frame_at w df)) (heap w))
              (ui w) (disk w) (dtypes w)).
Proof.
  unfold task_distribution_by_type, bind, get_frame, set_frame, ret, frame_at.
  cbn [fst snd heap ui disk]. rewrite frame_at_update_map. reflexivity.
Qed.

Lemma per_person_run (w : world) (df : ref) :
  frame_at w df <> [] ->
  outcome (bandwidth_efficiency_per_person df) w
  = Ok (per_person_figure (frame_at w df))
  /\ ui (after (bandwidth_efficiency_per_person df) w) = ui w
  /\ disk (after (bandwidth_efficiency_per_person df) w) = disk w.
Proof.
  intros Hne. unfold outcome, after. rewrite per_person_world.
  destruct (frame_at w df); [now elim Hne|].
  split; [|split]; reflexivity.
Qed.

Lemma nth_last_of_two {A : Type} (h : list A) (x y d : A) :
  nth (S (List.length h)) ((h ++ [x]) ++ [y]) d = y.
Proof.
  replace (S (List.length h)) with (List.length (h ++ [x]))
    by (rewrite length_app; simpl; lia).
  apply nth_middle.
Qed.

Lemma shown_services_typed (f : frame) :
  shown_services (map classify_distribution f) = shown_services f.
Proof.
  unfold shown_services. apply filter_ext. intros service.
  unfold service_matches. rewrite filter_map_swap.
  cbn [classify_distribution set_Task_Type Labels].
  now destruct (filter _ f).
Qed.

(** Reading the cleaned frame, the last of the heap, and reading a frame
    that was just written. *)
Ltac read_cleaned df C :=
  repeat match goal with
         | |- context [@nth ?A df ?l ?d] =>
             let H := fresh in
             assert (H : @nth A df l d = C) by apply nth_last_of_two;
             rewrite !H; clear H
         end.

Ltac read_written df :=
  repeat match goal with
         | |- context [@nth ?A df (@update ?B df ?X ?l) ?d] =>
             let H := fresh in
             assert (H : @nth A df (@update B df X l) d = X)
               by (apply nth_update_same; unfold df; rewrite !length_app;
                   simpl; lia);
             rewrite !H; clear H
         end.

Lemma with_dtype_other (df k : ref) (t : dtype) (ts : ref -> dtype) :
  df <> k -> with_dtype k t ts df = ts df.
Proof.
  intros H. unfold with_dtype.
  destruct (Nat.eqb_spec df k); [contradiction | reflexivity].
Qed.

Lemma read_dtype_object (lines : list csv_row) :
  (exists l, In l lines /\ csv_Labels l <> None) -> read_dtype lines = object.
Proof.
  intros [l [Hl Hlabel]]. destruct lines as [|l0 ls]; [destruct Hl|].
  unfold read_dtype.
  destruct (existsb _ (l0 :: ls)) eqn:E; [reflexivity|].
  assert (X : existsb (fun l => negb (isna (csv_Labels l))) (l0 :: ls) = true).
  { apply existsb_exists. exists l. split; [exact Hl|].
    destruct (csv_Labels l); [reflexivity | now elim Hlabel]. }
  congruence.
Qed.

(** What the dashboard does with a table in which some record has label
    text and the date columns agree: it draws from the cleaned records, and
    stops at the per-person chart when there is none. *)
Lemma create_dashboard_run (w : world) (lines : list csv_row) :
  disk w file_path = Table lines ->
  tz_aware csv_Completed lines = tz_aware csv_Created lines ->
  (exists l, In l lines /\ csv_Labels l <> None) ->
  exists h t,
    create_dashboard w
    = (if is_empty (cleaned_rows lines) then Raise KeyError else Ok tt,
       mk_world h
         (ui w ++ if is_empty (cleaned_rows lines)
                  then dashboard_head (cleaned_rows lines)
                  else dashboard_events (cleaned_rows lines))
         (disk w) t).
Proof.
  intros Hfile Htz Hlabels.
  assert (Hlines : lines <> []).
  { destruct Hlabels as [l [Hl _]]. intros ->. destruct Hl. }
  pose proof (read_dtype_object lines Hlabels) as Hdtype.
  destruct w as [h0 u0 d0 t0]. cbn [disk ui] in *.
  unfold create_dashboard.
  erewrite bind_run by reflexivity.
  erewrite bind_run by (apply load_data_found_run; [exact Hfile | exact Htz]).
  cbn [heap ui disk dtypes]. rewrite Hdtype.
  erewrite bind_run by reflexivity.
  unfold frame_at at 1. cbn [heap]. rewrite nth_middle.
  destruct (map load_row lines) as [|l0 ls] eqn:Eloaded.
  { apply map_eq_nil in Eloaded. contradiction. }
  cbn [is_empty]. rewrite <- Eloaded. clear Eloaded l0 ls.
  erewrite bind_run
    by (apply preprocess_data_object; unfold dtype_at; cbn [dtypes];
        apply with_dtype_same).
  cbn [heap ui disk dtypes]. unfold frame_at at 1 2. cbn [heap]. rewrite nth_middle.
  fold (cleaned_rows lines).
  set (L := map load_row lines). set (D := drop_duplicates L).
  set (C := cleaned_rows lines).
  set (df := S (List.length (h0 ++ [L]))).
  erewrite bind_run by reflexivity.
  unfold frame_at. cbn [heap]. read_cleaned df C.
  erewrite bind_run by reflexivity. cbn [heap ui disk dtypes].
  erewrite bind_run by apply distribution_by_type_run.
  unfold frame_at. cbn [heap ui disk dtypes]. read_cleaned df C.
  erewrite bind_run by reflexivity. cbn [heap ui disk dtypes].
  erewrite bind_run by reflexivity.
  unfold frame_at. cbn [heap]. read_written df.
  erewrite bind_run by reflexivity. cbn [heap ui disk dtypes].
  erewrite bind_run by reflexivity. cbn [heap ui disk dtypes].
  set (w7 := mk_world _ _ d0 _).
  assert (Hdf : df < List.length (heap w7)).
  { unfold w7. cbn [heap]. rewrite update_length. unfold df.
    rewrite !length_app. simpl. lia. }
  assert (Hf7 : frame_at w7 df = map classify_distribution C).
  { unfold w7, frame_at. cbn [heap]. apply nth_update_same.
    unfold df. rewrite !length_app. simpl. lia. }
  assert (Ht7 : dtype_at w7 df = object).
  { unfold w7, dtype_at. cbn [dtypes]. apply with_dtype_same. }
  assert (Hempty : is_empty (map classify_distribution C) = is_empty C)
    by (now destruct C).
  unfold bind at 1. rewrite per_person_world. rewrite Hf7, Hempty.
  destruct (is_empty C) eqn:EC.
  - unfold w7. cbn [ui disk]. eexists. eexists. f_equal. f_equal.
    unfold dashboard_head. cbv zeta. rewrite <- !app_assoc. reflexivity.
  - erewrite bind_run by reflexivity. cbn [heap ui disk dtypes].
    erewrite bind_run by reflexivity. cbn [heap ui disk dtypes].
    rewrite split_by_service_run.
    + cbn [heap ui disk dtypes]. unfold frame_at. cbn [heap].
      assert (Hread : nth df ((heap w7 ++ [map clean_assignee (map classify_distribution C)])
                              ++ [map numeric_estimate
                                    (filter is_allowed
                                       (map clean_assignee (map classify_distribution C)))])
                          []
                      = map classify_distribution C).
      { rewrite <- app_assoc, app_nth1 by exact Hdf. exact Hf7. }
      rewrite Hread. unfold w7. cbn [ui disk].
      eexists. eexists. f_equal. f_equal.
      unfold dashboard_events. cbv zeta. rewrite <- !app_assoc. reflexivity.
    + unfold dtype_at. cbn [dtypes].
      rewrite !with_dtype_other by lia. exact Ht7.
Qed.

(** X7.  A table without lines is treated like a missing file, short of the
    error message: the dashboard shows its title and the warning, draws no
    chart and returns normally. *)
Theorem dashboard_empty_table (w : world) :
  disk w file_path = Table [] ->
  outcome create_dashboard w = Ok tt
  /\ ui (after create_dashboard w)
     = ui w ++ [st_title "Direct Ordering Squad : Q1 2025 Insights 🚀";
                st_warning
                  "No data available to display. Please check the file path or data format."].
Proof.
  intros H. destruct w as [h0 u0 d0]. cbn [disk ui] in *.
  unfold outcome, after, create_dashboard.
  erewrite bind_run by reflexivity.
  erewrite bind_run by (apply load_data_found_run; [exact H | reflexivity]).
  cbn [heap ui disk].
  erewrite bind_run by reflexivity.
  unfold frame_at. cbn [heap]. rewrite nth_middle.
  cbn [map is_empty emit fst snd ui heap disk].
  split; [reflexivity|]. now rewrite <- app_assoc.
Qed.

Lemma dashboard_empty_table_witness :
  disk (store_of [] empty_table) file_path = Table []
  /\ outcome create_dashboard (store_of [] empty_table) = Ok tt
  /\ ui (after create_dashboard (store_of [] empty_table))
     = [] ++ [st_title "Direct Ordering Squad : Q1 2025 Insights 🚀";
              st_warning
                "No data available to display. Please check the file path or data format."].
Proof.
  split; [reflexivity|].
  exact (dashboard_empty_table (store_of [] empty_table) eq_refl).
Defined.

Lemma service_charts_are_charts (f : frame) (l : list string) :
  filter is_chart (map (service_chart f) l) = map (service_chart f) l
  /\ filter is_notice (map (service_chart f) l) = [].
Proof.
  induction l as [|x l [IH1 IH2]]; [split; reflexivity|].
  cbn [map filter service_chart is_chart is_notice].
  fold (service_chart f x). rewrite IH1, IH2. split; reflexivity.
Qed.

(** X8.  Take a table in which some record has label text and whose
    Created and Completed columns agree on carrying a time zone.  When
    cleaning leaves at least one record, the dashboard returns normally and
    shows, in this order, the title, the team, task-type and priority pie
    charts, the per-person bar chart under its header, and under the last
    header one pie chart per service that matches a cleaned record: four
    charts and one more per such service, no error and no warning.  When
    cleaning leaves no record, the dashboard shows the title, the three pie
    charts and the per-person header, and stops there with the [KeyError]
    of the per-person chart.  The charts are drawn from the cleaned
    records; the velocity, team-efficiency, cycle-time and completion-rate
    charts are not drawn. *)
Theorem dashboard_draws (w : world) (lines : list csv_row)
  (Hfile : disk w file_path = Table lines)
  (Htz : tz_aware csv_Completed lines = tz_aware csv_Created lines)
  (Hlabels : exists l, In l lines /\ csv_Labels l <> None) :
  let cleaned := cleaned_rows lines in
  (cleaned <> [] ->
     outcome create_dashboard w = Ok tt
     /\ ui (after create_dashboard w) = ui w ++ dashboard_events cleaned
     /\ List.length (filter is_chart (dashboard_events cleaned))
        = 4 + List.length (shown_services cleaned)
     /\ filter is_notice (dashboard_events cleaned) = [])
  /\ (cleaned = [] ->
        outcome create_dashboard w = Raise KeyError
        /\ ui (after create_dashboard w) = ui w ++ dashboard_head cleaned).
Proof.
  intros cleaned.
  destruct (create_dashboard_run w lines Hfile Htz Hlabels) as [h [t Hrun]].
  fold cleaned in Hrun.
  unfold outcome, after. rewrite Hrun. cbn [fst snd ui]. split.
  - intros Hne. destruct cleaned as [|r0 rs] eqn:E; [now elim Hne|].
    cbn [is_empty]. split; [reflexivity|]. split; [reflexivity|].
    unfold dashboard_events. cbv zeta.
    destruct (service_charts_are_charts (map classify_distribution (r0 :: rs))
                (shown_services (map classify_distribution (r0 :: rs)))) as [H1 H2].
    rewrite !filter_app, H1, H2, length_app, length_map, shown_services_typed.
    split; reflexivity.
  - intros ->. split; reflexivity.
Qed.

Lemma dashboard_draws_witness :
  disk (store_of [] (one_file [sample_line])) file_path = Table [sample_line]
  /\ cleaned_rows [sample_line] <> []
  /\ outcome create_dashboard (store_of [] (one_file [sample_line])) = Ok tt
  /\ List.length
       (filter is_chart
          (ui (after create_dashboard (store_of [] (one_file [sample_line])))))
     = 5.
Proof.
  assert (H2 : cleaned_rows [sample_line] <> []) by (vm_compute; discriminate).
  assert (H3 : exists l, In l [sample_line] /\ csv_Labels l <> None).
  { exists sample_line. split; [now left | discriminate]. }
  split; [reflexivity|]. split; [exact H2|].
  destruct (dashboard_draws (store_of [] (one_file [sample_line])) [sample_line]
              eq_refl eq_refl H3) as [Hdraws _].
  destruct (Hdraws H2) as [Hout [Hui [Hcount _]]].
  split; [exact Hout|]. rewrite Hui. cbn [store_of ui app]. rewrite Hcount.
  reflexivity.
Defined.

(** ** Further properties of the aggregators *)

Lemma present_nil_iff (g : frame) :
  present_cycle_times g = [] <-> forall r, In r g -> Cycle_Time r = None.
Proof.
  unfold present_cycle_times. induction g as [|x g IH]; cbn [map flat_map].
  - split; [intros _ r [] | reflexivity].
  - destruct (Cycle_Time x) as [q|] eqn:E; cbn [app].
    + split; [discriminate|]. intros H.
      specialize (H x (or_introl eq_refl)). congruence.
    + rewrite IH. split.
      * intros H r [<-|Hr]; [exact E | now apply H].
      * intros H r Hr. apply H. now right.
Qed.

Lemma avg_cycle_time_lookup (k : string) (f : frame) :
  lookup k (avg_cycle_time f)
  = match group Cycle_Name k f with
    | [] => None
    | g => Some (mean (map Cycle_Time g))
    end.
Proof.
  unfold avg_cycle_time. rewrite lookup_map_keys.
  destruct (mem k (group_keys Cycle_Name f)) eqn:Hm.
  - apply mem_iff, group_keys_In in Hm.
    destruct (group Cycle_Name k f); [congruence | reflexivity].
  - destruct (group Cycle_Name k f) as [|r g] eqn:E; [reflexivity|].
    assert (In k (group_keys Cycle_Name f)) by (apply group_keys_In; congruence).
    apply mem_iff in H. congruence.
Qed.

(** X9.  The series of average cycle times (line 158) has an entry for a
    sprint exactly when some record is in that sprint; records without a
    sprint are in no entry.  The entry is NaN exactly when none of the
    sprint's records has a cycle time; otherwise it is the mean of the
    cycle times that are present, the records without one being skipped,
    not counted as zero.  The figure drawn from the series does not show it
    by sprint: the series is of dtype [object], and the figure is a chart
    of counts, with a bar of height 1 at each mean and no sprint name. *)
Theorem cycle_time_mean_by_sprint (w : world) (df : ref) (k : string) :
  let f := frame_at w df in
  let g := group Cycle_Name k f in
  let present := present_cycle_times g in
  exists s,
    s = avg_cycle_time f
    /\ (exists bars,
          outcome (task_completion_efficiency df) w
          = Ok (mk_figure CountChart
                  "Task Completion Efficiency (Average Cycle Time per Sprint)"
                  [("", bars)])
          /\ map snd bars = map snd s
          /\ forall label, In label (index_of bars) -> label = "")
    /\ (lookup k s = None <-> forall r, In r f -> Cycle_Name r <> Some k)
    /\ (g <> [] ->
        (lookup k s = Some NaN <-> forall r, In r g -> Cycle_Time r = None)
        /\ (present <> [] ->
            lookup k s
            = Some (Float (fold_right Qcplus 0%Qc present
                           / Qc_of_nat (List.length present))%Qc))).
Proof.
  intros f g present. exists (avg_cycle_time f).
  split; [reflexivity|]. split.
  { exists (map (fun kv => ("", snd kv)) (avg_cycle_time f)).
    split; [reflexivity|]. split.
    - rewrite map_map. reflexivity.
    - unfold index_of. rewrite map_map. intros label Hin.
      apply in_map_iff in Hin. destruct Hin as [kv [Hkv _]]. now symmetry. }
  rewrite avg_cycle_time_lookup. fold g.
  split.
  - split.
    + intros H r Hr Hk.
      assert (Hg : In r g).
      { apply filter_In. split; [exact Hr | now apply cell_is_iff]. }
      destruct g; [destruct Hg | discriminate].
    + intros H. destruct g as [|r g'] eqn:E; [reflexivity|].
      assert (Hg : In r (group Cycle_Name k f)) by (fold g; rewrite E; now left).
      apply filter_In in Hg. destruct Hg as [Hr Hk].
      apply cell_is_iff in Hk. elim (H r Hr Hk).
  - intros Hne. rewrite <- present_nil_iff. fold present.
    assert (Hl : match g with
                 | [] => None
                 | _ :: _ => Some (mean (map Cycle_Time g))
                 end = Some (mean (map Cycle_Time g)))
      by (destruct g; [congruence | reflexivity]).
    assert (Hm : mean (map Cycle_Time g)
                 = match present with
                   | [] => NaN
                   | _ :: _ => Float (fold_right Qcplus 0%Qc present
                                      / Qc_of_nat (List.length present))%Qc
                   end)
      by (unfold mean, present, present_cycle_times;
          destruct (flat_map _ _); reflexivity).
    replace (match g with
             | [] => None
             | r :: g0 => Some (mean (map Cycle_Time (r :: g0)))
             end) with (Some (mean (map Cycle_Time g)))
      by (destruct g; [congruence | reflexivity]).
    rewrite Hm. clear Hl Hm. clearbody present.
    destruct present as [|q qs].
    + split; [split; intros _; reflexivity | intros X; now elim X].
    + split; [split; discriminate | reflexivity].
Qed.

Lemma cycle_time_mean_by_sprint_witness :
  group Cycle_Name "JAN-S-1" (frame_at (store_of [sample_cycle_times] no_files) 0)
  <> []
  /\ present_cycle_times
       (group Cycle_Name "JAN-S-1"
              (frame_at (store_of [sample_cycle_times] no_files) 0)) <> []
  /\ lookup "JAN-S-1"
            (avg_cycle_time (frame_at (store_of [sample_cycle_times] no_files) 0))
     = Some (Float ((Q2Qc 2 + (Q2Qc 4 + 0)) / Qc_of_nat 2)%Qc).
Proof.
  assert (H1 : group Cycle_Name "JAN-S-1"
                     (frame_at (store_of [sample_cycle_times] no_files) 0) <> [])
    by (vm_compute; discriminate).
  assert (H2 : present_cycle_times
                 (group Cycle_Name "JAN-S-1"
                        (frame_at (store_of [sample_cycle_times] no_files) 0)) <> [])
    by (vm_compute; discriminate).
  split; [exact H1|]. split; [exact H2|].
  destruct (cycle_time_mean_by_sprint
              (store_of [sample_cycle_times] no_files) 0 "JAN-S-1")
    as [s [Hs [_ [_ H]]]].
  rewrite <- Hs. exact (proj2 (H H1) H2).
Defined.

Lemma Qc_of_Z_le (a b : Z) : (a <= b)%Z -> (Qc_of_Z a <= Qc_of_Z b)%Qc.
Proof.
  intros H. unfold Qcle, Qc_of_Z. cbn [Q2Qc this].
  rewrite !Qred_correct. unfold Qle, inject_Z. simpl. lia.
Qed.

Lemma Qc_of_Z_pos (a : Z) : (0 < a)%Z -> (0 < Qc_of_Z a)%Qc.
Proof.
  intros H. unfold Qclt, Qc_of_Z. cbn [Q2Qc this].
  rewrite !Qred_correct. unfold Qlt, inject_Z. simpl. lia.
Qed.

Lemma Qcinv_pos (x : Qc) : (0 < x)%Qc -> (0 < / x)%Qc.
Proof.
  intros H. unfold Qclt, Qcinv in *. cbn [Q2Qc this] in *.
  rewrite !Qred_correct in *. now apply Qinv_lt_0_compat.
Qed.

Lemma Qcmult_pos (x y : Qc) : (0 < x)%Qc -> (0 < y)%Qc -> (0 < x * y)%Qc.
Proof.
  intros Hx Hy. rewrite <- (Qcmult_0_l y). now apply Qcmult_lt_compat_r.
Qed.

(** The rate of a priority with a done record is a percentage. *)
Lemma completion_rate_bounds (done total : nat) :
  1 <= done -> done <= total ->
  (0 < completion_rate done total)%Qc
  /\ (completion_rate done total <= Qc_of_Z 100)%Qc.
Proof.
  intros Hd Ht. unfold completion_rate, Qc_of_nat.
  assert (Hpd : (0 < Qc_of_Z (Z.of_nat done))%Qc) by (apply Qc_of_Z_pos; lia).
  assert (Hpt : (0 < Qc_of_Z (Z.of_nat total))%Qc) by (apply Qc_of_Z_pos; lia).
  assert (Hp100 : (0 < Qc_of_Z 100)%Qc) by (apply Qc_of_Z_pos; lia).
  assert (Hinv : (0 < / Qc_of_Z (Z.of_nat total))%Qc) by now apply Qcinv_pos.
  split.
  - apply Qcmult_pos; [|exact Hp100]. unfold Qcdiv. now apply Qcmult_pos.
  - rewrite <- (Qcmult_1_l (Qc_of_Z 100)) at 2.
    apply Qcmult_le_compat_r; [|now apply Qclt_le_weak].
    rewrite <- (Qcmult_inv_r (Qc_of_Z (Z.of_nat total)))
      by (apply Qclt_not_eq in Hpt; congruence).
    unfold Qcdiv. apply Qcmult_le_compat_r; [|now apply Qclt_le_weak].
    apply Qc_of_Z_le. lia.
Qed.

(** X10.  The completion chart has a bar for a priority exactly when some
    record has that priority; records without a priority are in no bar.
    Each bar is either NaN or a rate above 0 and at most 100: the chart
    never shows a rate of 0. *)
Theorem priority_rates_are_percentages (w : world) (df : ref) (p : string) :
  let f := frame_at w df in
  exists s,
    outcome (priority_vs_completion df) w
    = Ok (px_bar s "Completion Rate by Priority")
    /\ (lookup p s = None <-> forall r, In r f -> Priority r <> Some p)
    /\ (forall v, lookup p s = Some v ->
          v = NaN
          \/ exists q, v = Float q /\ (0 < q)%Qc /\ (q <= Qc_of_Z 100)%Qc).
Proof.
  intros f. exists (priority_completion f).
  split; [apply priority_vs_completion_run|].
  rewrite priority_completion_lookup. split.
  - unfold count. split.
    + intros H r Hr Hp.
      assert (Hin : In r (filter (with_priority p) f)).
      { apply filter_In. split; [exact Hr | now apply cell_is_iff]. }
      destruct (filter (with_priority p) f); [destruct Hin | discriminate].
    + intros H. destruct (filter (with_priority p) f) as [|r g] eqn:E;
        [reflexivity|].
      assert (Hin : In r (filter (with_priority p) f)) by (rewrite E; now left).
      apply filter_In in Hin. destruct Hin as [Hr Hp].
      apply cell_is_iff in Hp. elim (H r Hr Hp).
  - intros v Hv. pose proof (done_le_total p f) as Hle.
    destruct (count (with_priority p) f) as [|t] eqn:Et; [discriminate|].
    destruct (count (done_with_priority p) f) as [|d] eqn:Ed.
    + left. congruence.
    + right. exists (completion_rate (S d) (S t)).
      split; [congruence|]. apply completion_rate_bounds; lia.
Qed.







Lemma rename_sprint_idempotent (r : row) :
  rename_sprint (rename_sprint r) = rename_sprint r.
Proof.
  apply rename_sprint_fixed. unfold rename_sprint. cbn [set_Cycle_Name Cycle_Name].
  destruct (Cycle_Name r) as [c|]; cbn [replace_cell lookup sprint_rename].
  - destruct (String.eqb_spec c "FEB-S-3") as [->|H3]; [split; discriminate|].
    destruct (String.eqb_spec c "FEB-S-4") as [->|H4]; [split; discriminate|].
    split; congruence.
  - split; discriminate.
Qed.

Lemma numeric_estimate_idempotent (r : row) :
  numeric_estimate (numeric_estimate r) = numeric_estimate r.
Proof.
  apply numeric_estimate_fixed. unfold numeric_estimate.
  cbn [set_Estimate Estimate]. now eexists.
Qed.

Lemma bandwidth_efficiency_run (w : world) (df : ref) :
  bandwidth_efficiency df w
  = (Ok (efficiency_figure (frame_at w df)),
     mk_world (update df (map numeric_estimate (frame_at w df)) (heap w))
              (ui w) (disk w) (dtypes w)).
Proof.
  unfold bandwidth_efficiency, bind, get_frame, set_frame, ret, frame_at.
  cbn [fst snd heap ui disk]. rewrite frame_at_update_map.
  unfold efficiency_figure, estimate_sum. rewrite map_map. reflexivity.
Qed.

Lemma sprint_velocity_world (w : world) (df : ref) :
  sprint_velocity_trend df w
  = (Ok (px_bar (completed_tasks (map rename_sprint (frame_at w df)))
                "Sprint Velocity (Tasks Completed per Sprint)"),
     mk_world (update df (map rename_sprint (frame_at w df)) (heap w))
              (ui w) (disk w) (dtypes w)).
Proof.
  unfold sprint_velocity_trend, bind, get_frame, set_frame, ret, frame_at.
  cbn [fst snd heap ui disk]. now rewrite frame_at_update_map.
Qed.

Lemma update_twice {A : Type} (i : nat) (x y : A) (l : list A) :
  update i y (update i x l) = update i y l.
Proof.
  revert i; induction l as [|z l IH]; intros [|i]; simpl; auto.
  f_equal. apply IH.
Qed.

(** Writing a column a second time with a function that is idempotent on
    every record finds the frame as the first write left it. *)
Lemma write_twice (g : row -> row) (h : list frame) (df : ref) :
  (forall r, g (g r) = g r) ->
  let written : frame := map g (nth df h []) in
  map g (nth df (update df written h) []) = written
  /\ update df written (update df written h) = update df written h.
Proof.
  intros Hg written. split; [|apply update_twice].
  unfold written. rewrite frame_at_update_map, map_map.
  apply map_ext. exact Hg.
Qed.

Lemma classify_distribution_idempotent (r : row) :
  classify_distribution (classify_distribution r) = classify_distribution r.
Proof. reflexivity. Qed.

Lemma estimate_value_numeric (r : row) :
  estimate_value (numeric_estimate r) = estimate_value r.
Proof.
  unfold estimate_value, numeric_estimate. cbn [set_Estimate Estimate].
  reflexivity.
Qed.

(** X12.  The aggregators that write a column are idempotent: a second
    call of sprint velocity, of team bandwidth efficiency or of the
    task-type distribution on the same frame returns the chart of the first
    call and leaves the store as the first call left it. *)
Theorem writers_idempotent (w : world) (df : ref) :
  sprint_velocity_trend df (after (sprint_velocity_trend df) w)
  = (outcome (sprint_velocity_trend df) w, after (sprint_velocity_trend df) w)
  /\ bandwidth_efficiency df (after (bandwidth_efficiency df) w)
     = (outcome (bandwidth_efficiency df) w, after (bandwidth_efficiency df) w)
  /\ task_distribution_by_type df (after (task_distribution_by_type df) w)
     = (outcome (task_distribution_by_type df) w,
        after (task_distribution_by_type df) w).
Proof.
  unfold outcome, after. split; [|split].
  - rewrite (sprint_velocity_world w df). cbn [fst snd].
    rewrite sprint_velocity_world. unfold frame_at. cbn [heap ui disk].
    destruct (write_twice rename_sprint (heap w) df rename_sprint_idempotent)
      as [H1 H2].
    apply (f_equal2 pair).
    + apply f_equal. apply (f_equal (fun s => px_bar s _)). apply f_equal.
      exact H1.
    + apply (f_equal (fun h => mk_world h _ _ _)).
      etransitivity; [|exact H2]. apply f_equal2; [exact H1 | reflexivity].
  - rewrite (bandwidth_efficiency_run w df). cbn [fst snd].
    rewrite bandwidth_efficiency_run. unfold frame_at. cbn [heap ui disk].
    destruct (write_twice numeric_estimate (heap w) df numeric_estimate_idempotent)
      as [H1 H2].
    apply (f_equal2 pair).
    + apply f_equal. unfold efficiency_figure.
      apply (f_equal
               (fun vs =>
                  mk_figure BarChart "Bandwidth Efficiency: Actual vs Predicted"
                    [("Person Weeks",
                      [("Predicted Efficiency", Float (Qc_of_Z 12));
                       ("Actual Efficiency",
                        Float (fold_right Qcplus 0%Qc vs / Qc_of_Z 5)%Qc)])])).
      rewrite frame_at_update_map, map_map. apply map_ext. intros r.
      apply estimate_value_numeric.
    + apply (f_equal (fun h => mk_world h _ _ _)).
      etransitivity; [|exact H2]. apply f_equal2; [exact H1 | reflexivity].
  - rewrite (distribution_by_type_run w df). cbn [fst snd].
    rewrite distribution_by_type_run. unfold frame_at. cbn [heap ui disk].
    destruct (write_twice classify_distribution (heap w) df
                classify_distribution_idempotent) as [H1 H2].
    apply (f_equal2 pair).
    + apply f_equal. apply (f_equal (fun s => px_pie s _)). do 2 apply f_equal.
      exact H1.
    + apply (f_equal (fun h => mk_world h _ _ _)).
      etransitivity; [|exact H2]. apply f_equal2; [exact H1 | reflexivity].
Qed.

(** X13.  Team bandwidth efficiency compares the fixed 12 person-weeks with
    the sum of the estimates over 5, where an estimate that is missing or is
    not a number counts as 0; when it returns, every estimate of the frame
    is a number, and the numbers it found are unchanged. *)
Theorem bandwidth_efficiency_sum (w : world) (df : ref) :
  let f := frame_at w df in
  outcome (bandwidth_efficiency df) w = Ok (efficiency_figure f)
  /\ (forall r, estimate_value r
                = match Estimate r with
                  | EstNumber q => q
                  | EstText _ | EstMissing => 0%Qc
                  end)
  /\ (forall r, In r (frame_at (after (bandwidth_efficiency df) w) df) ->
                exists q, Estimate r = EstNumber q)
  /\ map estimate_value (frame_at (after (bandwidth_efficiency df) w) df)
     = map estimate_value f.
Proof.
  intros f.
  assert (Hf : frame_at (after (bandwidth_efficiency df) w) df
               = map numeric_estimate f).
  { unfold after. rewrite bandwidth_efficiency_run. cbn [snd].
    unfold frame_at. cbn [heap]. apply frame_at_update_map. }
  rewrite Hf. unfold outcome. rewrite bandwidth_efficiency_run. cbn [fst].
  split; [reflexivity|]. split; [|split].
  - intros r. unfold estimate_value. now destruct (Estimate r).
  - intros r Hr. apply in_map_iff in Hr. destruct Hr as [x [<- _]].
    unfold numeric_estimate. cbn [set_Estimate Estimate]. now eexists.
  - rewrite map_map. apply map_ext. intros r. apply estimate_value_numeric.
Qed.

Lemma combine_map {A B : Type} (g : A -> B) (l : list A) :
  combine l (map g l) = map (fun x => (x, g x)) l.
Proof. induction l as [|x l IH]; cbn [combine map]; [reflexivity | now rewrite IH]. Qed.

Lemma predicted_week_cases (person : string) :
  predicted_week person
  = if Text.contains "ganesh" (clean_name person) then 4%Z else 12%Z.
Proof.
  unfold predicted_week, available_weeks, index_of. cbn [map fst find].
  destruct (Text.contains "ganesh" (clean_name person)); [reflexivity|].
  destruct (Text.contains "gagan" (clean_name person)); [reflexivity|].
  destruct (Text.contains "akshay" (clean_name person)); reflexivity.
Qed.

Lemma group_keys_exists (col : row -> option string) (k : string) (f : frame) :
  In k (group_keys col f) <-> exists r, In r f /\ col r = Some k.
Proof.
  unfold group_keys. now rewrite sort_labels_In, unique_In, column_values_In.
Qed.

Lemma contains_empty (person : string) :
  person <> "" -> Text.contains person "" = false.
Proof. destruct person; [congruence | reflexivity]. Qed.

(** X14.  On a frame with at least one record the per-person chart has
    two series over the same people.  A name is in the chart exactly when
    it is the cleaned assignee of some record and contains "gagan",
    "ganesh" or "akshay"; records without an assignee are left out.  The
    predicted value of a person is 4 when the name contains "ganesh" and 12
    in every other case.  On a frame without records no chart is returned:
    reading the Estimate column of the selection raises [KeyError]. *)
Theorem per_person_people (w : world) (df : ref) (p : string) :
  let f := frame_at w df in
  (f <> [] ->
   exists predicted actual,
     outcome (bandwidth_efficiency_per_person df) w
     = Ok (mk_figure BarChart "Bandwidth Efficiency Per Person: Actual vs Predicted"
             [("Predicted Efficiency (Person Weeks)", predicted);
              ("Actual Efficiency (Person Weeks)", actual)])
     /\ index_of predicted = index_of actual
     /\ (In p (index_of actual)
         <-> (exists r, In r f /\ clean_name (assignee_text r) = p)
             /\ exists person, In person allowed_people
                               /\ Text.contains person p = true)
     /\ ~ In "" (index_of actual)
     /\ (forall v, lookup p predicted = Some v ->
           v = Float (Qc_of_Z (if Text.contains "ganesh" (clean_name p)
                               then 4 else 12))))
  /\ (f = [] ->
      outcome (bandwidth_efficiency_per_person df) w = Raise KeyError).
Proof.
  intros f. split;
    [|intros Hnil; unfold outcome; rewrite per_person_world; fold f;
      now rewrite Hnil].
  intros Hrows.
  set (filtered := map numeric_estimate (filter is_allowed (map clean_assignee f))).
  set (efficiency := person_efficiency filtered).
  exists (combine (index_of efficiency)
                  (map (fun w => Float (Qc_of_Z w))
                       (map predicted_week (index_of efficiency)))),
         (map (fun kv => (fst kv, Float (snd kv))) efficiency).
  split; [apply (per_person_run w df Hrows)|].
  assert (Hidx : index_of efficiency = group_keys Assignee filtered)
    by (unfold efficiency, person_efficiency; apply index_of_map_keys).
  assert (Hactual : index_of (map (fun kv : string * Qc => (fst kv, Float (snd kv)))
                                  efficiency) = index_of efficiency).
  { unfold index_of. rewrite map_map. reflexivity. }
  assert (Hin : forall q, In q (group_keys Assignee filtered)
                  <-> (exists r, In r f /\ clean_name (assignee_text r) = q)
                      /\ exists person, In person allowed_people
                                        /\ Text.contains person q = true).
  { intros q. rewrite group_keys_exists. unfold filtered. split.
    - intros [r [Hr Hq]]. apply in_map_iff in Hr. destruct Hr as [x [<- Hx]].
      apply filter_In in Hx. destruct Hx as [Hx Hallowed].
      apply in_map_iff in Hx. destruct Hx as [r0 [<- Hr0]].
      cbn [numeric_estimate set_Estimate clean_assignee set_Assignee Assignee] in Hq.
      inversion Hq as [Hq']. split; [exists r0; now split|].
      unfold is_allowed in Hallowed.
      cbn [clean_assignee set_Assignee Assignee] in Hallowed.
      apply existsb_exists in Hallowed. destruct Hallowed as [person [Hp Hc]].
      exists person. split; [exact Hp|]. fold (assignee_text r0) in Hc. exact Hc.
    - intros [[r0 [Hr0 Hq]] [person [Hp Hc]]].
      exists (numeric_estimate (clean_assignee r0)). split.
      + apply in_map. apply filter_In. split; [now apply in_map|].
        unfold is_allowed. cbn [clean_assignee set_Assignee Assignee].
        apply existsb_exists. exists person. split; [exact Hp|].
        fold (assignee_text r0). now rewrite Hq.
      + cbn [numeric_estimate set_Estimate clean_assignee set_Assignee Assignee].
        fold (assignee_text r0). now rewrite Hq. }
  split; [|split; [|split]].
  - rewrite map_map, combine_map, index_of_map_keys. now rewrite Hactual.
  - rewrite Hactual, Hidx. apply Hin.
  - rewrite Hactual, Hidx, Hin. intros [_ [person [Hp Hc]]].
    rewrite contains_empty in Hc; [discriminate|].
    cbn in Hp. destruct Hp as [<-|[<-|[<-|[]]]]; discriminate.
  - intros v Hv. rewrite map_map, combine_map, lookup_map_keys in Hv.
    destruct (mem p (index_of efficiency)); [|discriminate].
    inversion Hv. now rewrite predicted_week_cases.
Qed.

Lemma per_person_people_witness :
  let w := store_of [sample_team] no_files in
  frame_at w 0 <> []
  /\ exists predicted actual,
       outcome (bandwidth_efficiency_per_person 0) w
       = Ok (mk_figure BarChart
               "Bandwidth Efficiency Per Person: Actual vs Predicted"
               [("Predicted Efficiency (Person Weeks)", predicted);
                ("Actual Efficiency (Person Weeks)", actual)])
       /\ In "gagan" (index_of actual)
       /\ ~ In "" (index_of actual).
Proof.
  intros w.
  assert (Hrows : frame_at w 0 <> []) by discriminate.
  split; [exact Hrows|].
  destruct (per_person_people w 0 "gagan") as [H _].
  destruct (H Hrows) as [predicted [actual [Hout [_ [Hin [Hblank _]]]]]].
  exists predicted, actual. split; [exact Hout|]. split; [|exact Hblank].
  apply Hin. split.
  - exists (assigned "DO-1" (Some " Gagan@urbanpiper.com")).
    split; [now left | reflexivity].
  - exists "gagan". split; [now left | reflexivity].
Defined.

(** ** Counting values *)

Lemma list_sum_cons (x : nat) (l : list nat) : list_sum (x :: l) = x + list_sum l.
Proof. reflexivity. Qed.

Lemma insert_count_sum (x : string * nat) (l : list (string * nat)) :
  list_sum (map snd (insert_count x l)) = snd x + list_sum (map snd l).
Proof.
  induction l as [|y l IH]; cbn [insert_count]; [reflexivity|].
  destruct (snd y <=? snd x); cbn [map]; rewrite ?list_sum_cons;
    [reflexivity|].
  rewrite IH. lia.
Qed.

Lemma insert_count_In (k : string) (x : string * nat) (l : list (string * nat)) :
  In k (map fst (insert_count x l)) <-> k = fst x \/ In k (map fst l).
Proof.
  induction l as [|y l IH]; cbn [insert_count].
  - simpl. intuition.
  - destruct (snd y <=? snd x); cbn [map In]; [intuition|].
    rewrite IH. intuition.
Qed.

Lemma sorted_counts_sum (cs : list (string * nat)) :
  list_sum (map snd (fold_right insert_count [] cs)) = list_sum (map snd cs).
Proof.
  induction cs as [|c cs IH]; cbn [fold_right map]; [reflexivity|].
  now rewrite insert_count_sum, list_sum_cons, IH.
Qed.

Lemma sorted_counts_In (k : string) (cs : list (string * nat)) :
  In k (map fst (fold_right insert_count [] cs)) <-> In k (map fst cs).
Proof.
  induction cs as [|c cs IH]; cbn [fold_right map In]; [tauto|].
  rewrite insert_count_In, IH. intuition.
Qed.

Lemma unique_from_NoDup (l : list string) :
  forall seen, NoDup (unique_from seen l).
Proof.
  induction l as [|x l IH]; intros seen; cbn [unique_from]; [constructor|].
  destruct (mem x seen); [apply IH|].
  constructor; [|apply IH].
  intros H. apply unique_from_In in H. destruct H as [_ H]. apply H. now left.
Qed.

(** Over labels that are pairwise distinct, one value is counted once if it
    is among them. *)
Lemma one_label (x : string) (labels : list string) :
  NoDup labels ->
  list_sum (map (fun v => if String.eqb v x then 1 else 0) labels)
  = if mem x labels then 1 else 0.
Proof.
  induction labels as [|v labels IH]; intros Hnd; [reflexivity|].
  inversion Hnd as [|y l Hnotin Hnd']; subst.
  cbn [map mem existsb]. rewrite list_sum_cons.
  fold (mem x labels). rewrite (IH Hnd').
  rewrite (String.eqb_sym v x).
  destruct (String.eqb_spec x v) as [->|Hne]; cbn [orb]; [|reflexivity].
  destruct (mem v labels) eqn:Hm; [|reflexivity].
  apply mem_iff in Hm. contradiction.
Qed.

Lemma counts_sum (labels values : list string) :
  NoDup labels ->
  list_sum (map (fun v => List.length (filter (String.eqb v) values)) labels)
  = List.length (filter (fun x => mem x labels) values).
Proof.
  intros Hnd. induction values as [|x values IH].
  - cbn [filter List.length]. induction labels; [reflexivity|].
    cbn [map]. rewrite list_sum_cons. inversion Hnd; subst. auto.
  - transitivity
      (list_sum (map (fun v => if String.eqb v x then 1 else 0) labels)
       + list_sum (map (fun v => List.length (filter (String.eqb v) values)) labels)).
    + clear IH Hnd. induction labels as [|v labels IHl]; [reflexivity|].
      cbn [map]. rewrite !list_sum_cons, IHl. cbn [filter].
      destruct (String.eqb v x); cbn [List.length]; lia.
    + rewrite IH, (one_label x labels Hnd). cbn [filter].
      destruct (mem x labels); cbn [List.length]; lia.
Qed.

Lemma series_total_counts (cs : list (string * nat)) :
  series_total (map (fun kv => (fst kv, Int (Z.of_nat (snd kv)))) cs)
  = Z.of_nat (list_sum (map snd cs)).
Proof.
  unfold series_total. induction cs as [|c cs IH]; [reflexivity|].
  cbn [map fold_right snd]. rewrite list_sum_cons, IH. lia.
Qed.

(** The counts of [value_counts] add up to the number of values, and its
    labels are the values that occur. *)
Lemma value_counts_total (values : list string) :
  series_total (value_counts values) = Z.of_nat (List.length values)
  /\ forall k, In k (index_of (value_counts values)) <-> In k values.
Proof.
  unfold value_counts. split.
  - rewrite series_total_counts, sorted_counts_sum, map_map. cbn [snd].
    rewrite counts_sum by apply unique_from_NoDup.
    rewrite filter_all; [reflexivity|].
    intros x Hx. apply mem_iff. now apply unique_In.
  - intros k. unfold index_of. rewrite map_map. cbn [fst].
    rewrite sorted_counts_In, map_map. cbn [fst]. rewrite map_id.
    apply unique_In.
Qed.

Lemma task_type_column_distribution (f : frame) :
  task_type_column (map classify_distribution f)
  = map (fun r => task_type_name (DistributionByType.get_task_type (Labels r))) f.
Proof.
  unfold task_type_column, column_values.
  induction f as [|r f IH]; [reflexivity|].
  cbn [map flat_map]. rewrite IH. reflexivity.
Qed.

(** X15.  The task-type pie counts every record of the frame exactly once:
    its counts add up to the number of records, and a task type is among
    its labels exactly when some record is classified as that type, so the
    labels are among the four type names. *)
Theorem type_distribution_total (w : world) (df : ref) :
  let f := frame_at w df in
  exists s,
    outcome (task_distribution_by_type df) w
    = Ok (px_pie s "Task Distribution Across Task Types")
    /\ series_total s = Z.of_nat (List.length f)
    /\ (forall t, In (task_type_name t) (index_of s)
                  <-> exists r, In r f
                                /\ DistributionByType.get_task_type (Labels r) = t)
    /\ (forall k, In k (index_of s) ->
          In k ["Bug"; "Service Request"; "Infrastructure"; "Feature/Enhancement"]).
Proof.
  intros f.
  exists (value_counts (task_type_column (map classify_distribution f))).
  split; [unfold outcome; now rewrite distribution_by_type_run|].
  rewrite task_type_column_distribution.
  destruct (value_counts_total
              (map (fun r => task_type_name
                               (DistributionByType.get_task_type (Labels r))) f))
    as [Htotal Hin].
  split; [now rewrite Htotal, length_map|]. split.
  - intros t. rewrite Hin, in_map_iff. split.
    + intros [r [Hname Hr]]. exists r. split; [exact Hr|].
      destruct (DistributionByType.get_task_type (Labels r)), t;
        try reflexivity; discriminate.
    + intros [r [Hr Ht]]. exists r. now rewrite Ht.
  - intros k Hk. apply Hin in Hk. apply in_map_iff in Hk.
    destruct Hk as [r [<- _]].
    destruct (DistributionByType.get_task_type (Labels r)); simpl; tauto.
Qed.

(** ** The sign of the cycle time *)

Lemma days_value (z : Z) :
  (this (total_seconds z / Qc_of_Z 86400)%Qc == z # 86400000000000)%Q.
Proof.
  unfold total_seconds, Qc_of_Z, Qcdiv, Qcmult, Qcinv. cbn [this Q2Qc].
  rewrite !Qred_correct. unfold Qeq, Qmult, Qinv, inject_Z. simpl. lia.
Qed.

Lemma days_sign (z : Z) :
  let q := (total_seconds z / Qc_of_Z 86400)%Qc in
  ((0 < q)%Qc <-> (0 < z)%Z) /\ ((q < 0)%Qc <-> (z < 0)%Z) /\ (q = 0%Qc <-> z = 0%Z).
Proof.
  intros q. pose proof (days_value z) as Hv. fold q in Hv.
  assert (Hpos : (0 < q)%Qc <-> (0 < z)%Z).
  { unfold Qclt. cbn [this Q2Qc]. rewrite Hv. unfold Qlt. simpl. lia. }
  assert (Hneg : (q < 0)%Qc <-> (z < 0)%Z).
  { unfold Qclt. cbn [this Q2Qc]. rewrite Hv. unfold Qlt. simpl. lia. }
  split; [exact Hpos|]. split; [exact Hneg|]. split.
  - intros H0. rewrite H0 in Hpos, Hneg.
    assert (Hirr : ~ (0 < 0)%Qc) by (intros X; now apply Qclt_not_eq in X).
    destruct (Z.lt_trichotomy z 0) as [Hz|[Hz|Hz]]; [|exact Hz|].
    + elim Hirr. now apply Hneg.
    + elim Hirr. now apply Hpos.
  - intros ->. apply Qc_is_canon. rewrite Hv. reflexivity.
Qed.

(** X16.  The cycle time is not clamped: for a record with both timestamps
    it is positive, zero or negative as the completion is after, at or
    before the creation, so a record completed before it was created has a
    negative cycle time and only equal timestamps give zero. *)
Theorem cycle_time_sign (l : csv_row) (c d : Z) :
  csv_Created l = WellFormed c ->
  csv_Completed l = WellFormed d ->
  exists q,
    Cycle_Time (load_row l) = Some q
    /\ ((0 < q)%Qc <-> (c < d)%Z)
    /\ ((q < 0)%Qc <-> (d < c)%Z)
    /\ (q = 0%Qc <-> c = d).
Proof.
  intros Hc Hd. exists (total_seconds (d - c) / Qc_of_Z 86400)%Qc.
  split.
  - cbn [load_row Cycle_Time]. rewrite Hc, Hd. reflexivity.
  - destruct (days_sign (d - c)) as [H1 [H2 H3]].
    rewrite H1, H2, H3. repeat split; lia.
Qed.

Lemma cycle_time_sign_witness :
  csv_Created sample_line = WellFormed (utc 2025 1 1 0 0 0)
  /\ csv_Completed sample_line = WellFormed (utc 2025 1 3 12 0 0)
  /\ exists q, Cycle_Time (load_row sample_line) = Some q /\ (0 < q)%Qc.
Proof.
  split; [reflexivity|]. split; [reflexivity|].
  destruct (cycle_time_sign sample_line (utc 2025 1 1 0 0 0) (utc 2025 1 3 12 0 0)
              eq_refl eq_refl) as [q [Hq [Hpos _]]].
  exists q. split; [exact Hq|]. apply Hpos. vm_compute. reflexivity.
Defined.

(** ** The cleaned assignee name *)

Lemma lower_char_idempotent (c : ascii) :
  Text.lower_char (Text.lower_char c) = Text.lower_char c.
Proof. destruct c as [[] [] [] [] [] [] [] []]; reflexivity. Qed.

Lemma lower_idempotent (s : string) : Text.lower (Text.lower s) = Text.lower s.
Proof.
  induction s as [|c s IH]; cbn [Text.lower]; [reflexivity|].
  now rewrite lower_char_idempotent, IH.
Qed.

Lemma lower_replace_from (old : string) (s : string) :
  forall skip,
    Text.lower s = s ->
    Text.lower (Text.replace_from old "" skip s) = Text.replace_from old "" skip s.
Proof.
  induction s as [|c s IH]; intros skip H; [reflexivity|].
  cbn [Text.lower] in H. injection H as Hc Hs.
  cbn [Text.replace_from]. destruct skip as [|k]; [|now apply IH].
  destruct (String.prefix old (String c s)).
  - cbn [append]. now apply IH.
  - cbn [Text.lower]. rewrite Hc. f_equal. now apply IH.
Qed.

Lemma lower_lstrip (s : string) :
  Text.lower s = s -> Text.lower (Text.lstrip s) = Text.lstrip s.
Proof.
  induction s as [|c s IH]; intros H; [reflexivity|].
  cbn [Text.lstrip]. destruct (Text.is_space c); [|exact H].
  cbn [Text.lower] in H. injection H as Hc Hs. now apply IH.
Qed.

Lemma lower_rstrip (s : string) :
  Text.lower s = s -> Text.lower (Text.rstrip s) = Text.rstrip s.
Proof.
  induction s as [|c s IH]; intros H; [reflexivity|].
  cbn [Text.lower] in H. injection H as Hc Hs.
  specialize (IH Hs). cbn [Text.rstrip].
  destruct (Text.rstrip s) as [|d t].
  - destruct (Text.is_space c); [reflexivity|].
    cbn [Text.lower]. now rewrite Hc.
  - cbn [Text.lower] in *. now rewrite Hc, IH.
Qed.

Lemma lstrip_length (s : string) :
  String.length (Text.lstrip s) <= String.length s.
Proof.
  induction s as [|c s IH]; cbn [Text.lstrip]; [reflexivity|].
  destruct (Text.is_space c); cbn [String.length]; lia.
Qed.

(** Text on which [lstrip] does nothing does not begin with white space. *)
Lemma lstrip_fixed (c : ascii) (s : string) :
  Text.lstrip (String c s) = String c s -> Text.is_space c = false.
Proof.
  cbn [Text.lstrip]. destruct (Text.is_space c); [|reflexivity].
  intros H. pose proof (lstrip_length s) as Hl. rewrite H in Hl.
  cbn [String.length] in Hl. lia.
Qed.

Lemma lstrip_idempotent (s : string) :
  Text.lstrip (Text.lstrip s) = Text.lstrip s.
Proof.
  induction s as [|c s IH]; [reflexivity|].
  cbn [Text.lstrip]. destruct (Text.is_space c) eqn:E; [exact IH|].
  cbn [Text.lstrip]. now rewrite E.
Qed.

Lemma rstrip_idempotent (s : string) :
  Text.rstrip (Text.rstrip s) = Text.rstrip s.
Proof.
  induction s as [|c s IH]; [reflexivity|].
  cbn [Text.rstrip]. destruct (Text.rstrip s) as [|d t] eqn:E.
  - destruct (Text.is_space c) eqn:Ec; [reflexivity|].
    cbn [Text.rstrip]. now rewrite Ec.
  - cbn [Text.rstrip] in *. now rewrite IH.
Qed.

Lemma lstrip_rstrip (s : string) :
  Text.lstrip s = s -> Text.lstrip (Text.rstrip s) = Text.rstrip s.
Proof.
  destruct s as [|c s]; [reflexivity|]. intros H.
  apply lstrip_fixed in H. cbn [Text.rstrip].
  destruct (Text.rstrip s) as [|d t]; rewrite ?H; cbn [Text.lstrip];
    now rewrite H.
Qed.

(** X17.  A cleaned name is in lower case and has no white space at either
    end: lowering it or stripping it again gives it back, and when it is
    not empty its first character is not white space. *)
Theorem clean_name_normal (name : string) :
  let cleaned := clean_name name in
  Text.lower cleaned = cleaned
  /\ Text.strip cleaned = cleaned
  /\ (forall c rest, cleaned = String c rest -> Text.is_space c = false).
Proof.
  intros cleaned. unfold cleaned, clean_name, Text.strip, Text.replace. cbv zeta.
  set (t := Text.replace_from "@urbanpiper.com" "" 0 (Text.lower name)).
  assert (Hl : Text.lstrip (Text.rstrip (Text.lstrip t)) = Text.rstrip (Text.lstrip t))
    by (apply lstrip_rstrip, lstrip_idempotent).
  split; [|split].
  - apply lower_rstrip, lower_lstrip. unfold t.
    apply lower_replace_from, lower_idempotent.
  - rewrite Hl. apply rstrip_idempotent.
  - intros c rest H. apply (lstrip_fixed c rest). rewrite <- H. exact Hl.
Qed.

(** ** Further properties of loading and of the service charts *)

(** X18.  When the file is found and its Created and Completed columns
    agree on carrying a time zone, so that line 23 does not raise, a date
    that does not parse costs the record nothing but that date: the loaded
    frame has one record per line, in the order of the lines, with the
    identifier, assignee, labels, status, priority, estimate and sprint of
    the line; each of its four timestamps is present exactly when the cell
    parses; its task type is not yet set. *)
Theorem load_data_keeps_lines (w : world) (path : string) (lines : list csv_row) :
  disk w path = Table lines ->
  tz_aware csv_Completed lines = tz_aware csv_Created lines ->
  exists df,
    outcome (load_data path) w = Ok df
    /\ forall i l, nth_error lines i = Some l ->
         exists r,
           nth_error (frame_at (after (load_data path) w) df) i = Some r
           /\ (ID r = csv_ID l /\ Assignee r = csv_Assignee l
               /\ Labels r = csv_Labels l /\ Status r = csv_Status l
               /\ Priority r = csv_Priority l /\ Estimate r = csv_Estimate l
               /\ Cycle_Name r = csv_Cycle_Name l)
           /\ (forall ns, (Created r = Some ns <-> csv_Created l = WellFormed ns)
                          /\ (Completed r = Some ns <-> csv_Completed l = WellFormed ns)
                          /\ (Updated r = Some ns <-> csv_Updated l = WellFormed ns)
                          /\ (Started r = Some ns <-> csv_Started l = WellFormed ns))
           /\ Task_Type r = None.
Proof.
  intros Hfile Htz.
  destruct (load_data_found w path lines Hfile Htz) as [Hout [Hframe _]].
  exists (List.length (heap w)). split; [exact Hout|]. rewrite Hframe.
  intros i l Hl. exists (load_row l). split; [now apply map_nth_error|].
  split; [repeat split|]. split; [|reflexivity].
  intros ns. cbn [load_row Created Completed Updated Started].
  repeat split; apply to_datetime_some.
Qed.

Lemma load_data_keeps_lines_witness :
  disk (store_of [] (one_file [sample_line])) file_path = Table [sample_line]
  /\ tz_aware csv_Completed [sample_line] = tz_aware csv_Created [sample_line]
  /\ exists df r,
      outcome (load_data file_path) (store_of [] (one_file [sample_line])) = Ok df
      /\ nth_error (frame_at (after (load_data file_path)
                                    (store_of [] (one_file [sample_line]))) df) 0
         = Some r
      /\ ID r = Some "DO-1" /\ Updated r = None.
Proof.
  split; [reflexivity|]. split; [reflexivity|].
  destruct (load_data_keeps_lines (store_of [] (one_file [sample_line]))
              file_path [sample_line] eq_refl eq_refl) as [df [H1 H2]].
  destruct (H2 0 sample_line eq_refl) as [r [Hr [[Hid _] [Hdates _]]]].
  exists df, r. split; [exact H1|]. split; [exact Hr|]. split; [exact Hid|].
  destruct (Updated r) as [ns|] eqn:E; [|reflexivity].
  destruct (Hdates ns) as [_ [_ [Hu _]]].
  pose proof (proj1 Hu eq_refl) as X. discriminate X.
Defined.

(** X19.  The pie of a service counts every record the service matches
    exactly once, under the type the record is classified as: its counts
    add up to the number of matching records. *)
Theorem service_chart_total (f : frame) (service : string) :
  exists s,
    service_chart f service
    = st_plotly_chart (px_pie s ("Task Type Split for " ++ upper service))
    /\ series_total s = Z.of_nat (List.length (service_matches service f))
    /\ (forall k, In k (index_of s)
                  <-> exists r, In r (service_matches service f)
                                /\ task_type_name
                                     (SplitByService.get_task_type (Labels r)) = k).
Proof.
  exists (value_counts
            (task_type_column (service_matches service (map classify_split f)))).
  split; [reflexivity|].
  rewrite service_matches_classified, task_type_column_classified.
  destruct (value_counts_total
              (map (fun r => task_type_name
                               (SplitByService.get_task_type (Labels r)))
                   (service_matches service f))) as [Htotal Hin].
  split; [now rewrite Htotal, length_map|].
  intros k. rewrite Hin, in_map_iff. split; intros [r [H1 H2]]; exists r; tauto.
Qed.
